(** * EdDSA (Ed25519) signature scheme of [Crypto.Signature.eddsa]

    A shallow embedding of [lib/Crypto/Signature/eddsa.py] and the
    properties of its [sign] and [verify] methods.

    The module delegates hashing, big-integer arithmetic and curve
    arithmetic to other packages ([Crypto.Hash.SHA512],
    [Crypto.Math.Numbers], [Crypto.PublicKey.ECC]).  Those collaborators
    are taken as an interface ([Backend]); the protocol logic of
    [eddsa.py] is translated statement by statement on top of it. *)

From Stdlib Require Import ZArith List Lia Bool.
From Stdlib Require Import Strings.String Strings.Byte.
From Stdlib Require Import Zmod.
From Bignums Require Import BigZ.
Import ListNotations.
Local Open Scope Z_scope.
Local Open Scope list_scope.

(* ================================================================= *)
(** ** Python values, exceptions and byte strings *)

Definition bytes := list byte.

(** The exception classes that [eddsa.py] raises or lets through,
    with the message they carry. *)
Inductive exn : Type :=
| TypeError (msg : string)
| ValueError (msg : string)
| ZeroDivisionError (msg : string)
| AttributeError (msg : string).

(** The outcome of evaluating a Python expression or call. *)
Inductive outcome (A : Type) : Type :=
| Return (a : A)
| Raise (e : exn).
Arguments Return {A} a.
Arguments Raise {A} e.

Definition obind {A B} (o : outcome A) (k : A -> outcome B) : outcome B :=
  match o with
  | Return a => k a
  | Raise e => Raise e
  end.

(** [try: o  except ValueError: raise e'] *)
Definition except_ValueError {A} (o : outcome A) (e' : exn) : outcome A :=
  match o with
  | Raise (ValueError _) => Raise e'
  | _ => o
  end.

(** [len(b)] *)
Definition len (b : bytes) : Z := Z.of_nat (List.length b).

(** Truth value of a [bytes] object: non-empty. *)
Definition truthy (b : bytes) : bool :=
  match b with
  | [] => false
  | _ :: _ => true
  end.

Definition byte_of_Z (z : Z) : byte :=
  match Byte.of_N (Z.to_N (z mod 256)) with
  | Some b => b
  | None => x00
  end.

Definition Z_of_byte (b : byte) : Z := Z.of_N (Byte.to_N b).

(** [Crypto.Util.py3compat.bchr]: [bytes([n])], which raises
    [ValueError] outside [range(256)]. *)
Definition bchr (n : Z) : outcome bytes :=
  if (0 <=? n) && (n <? 256) then Return [byte_of_Z n]
  else Raise (ValueError "bytes must be in range(0, 256)").

(** [int(ph)] for a [bool]. *)
Definition int (b : bool) : Z := if b then 1 else 0.

(** [b[:n]] and [b[n:]] for a non-negative constant [n]. *)
Definition slice_to (n : nat) (b : bytes) : bytes := firstn n b.
Definition slice_from (n : nat) (b : bytes) : bytes := skipn n b.

(* ================================================================= *)
(** ** [Crypto.Math.Numbers.Integer]

    Modelled from the spec: the big-integer collaborator, with the
    little-endian byte codec and the reduction that [eddsa.py] calls. *)

Module Integer.

(** [Integer.from_bytes(b, 'little')] *)
Fixpoint from_bytes (b : bytes) : Z :=
  match b with
  | [] => 0
  | x :: rest => Z_of_byte x + 256 * from_bytes rest
  end.

Fixpoint le_digits (n : nat) (v : Z) : bytes :=
  match n with
  | O => []
  | S n' => byte_of_Z v :: le_digits n' (v / 256)
  end.

(** [v.to_bytes(block_size, 'little')]: fails on a negative value and
    on a value that does not fit in [block_size] bytes. *)
Definition to_bytes (block_size : nat) (v : Z) : outcome bytes :=
  if v <? 0 then
    Raise (ValueError "Conversion only valid for non-negative numbers")
  else if 256 ^ Z.of_nat block_size <=? v then
    Raise (ValueError "Value too large to encode")
  else Return (le_digits block_size v).

(** [a % m] *)
Definition modulo (a m : Z) : outcome Z :=
  if m =? 0 then Raise (ZeroDivisionError "Division by zero")
  else Return (a mod m).

End Integer.

(* ================================================================= *)
(** ** Keys and the collaborators' interface *)

(** Modelled from the spec: the process-wide table of curve parameters
    ([key._curve]), of which [eddsa.py] reads the name, the generator
    [G] and the group order. *)
Record Curve (P : Type) : Type := mkCurve {
  name : string;
  G : P;
  order : Z
}.
Arguments mkCurve {P}.
Arguments name {P}.
Arguments G {P}.
Arguments order {P}.

(** Modelled from the spec: the [EccKey] object.  A public key is a
    curve point; a private key also carries the scalar [d] and the
    nonce-derivation secret [_prefix], both derived from the seed when
    the key is built. *)
Record EccKey (P : Type) : Type := mkEccKey {
  _curve : Curve P;
  pointQ : P;
  _d : option Z;
  _prefix : option bytes
}.
Arguments mkEccKey {P}.
Arguments _curve {P}.
Arguments pointQ {P}.
Arguments _d {P}.
Arguments _prefix {P}.

(** [key.has_private()] *)
Definition has_private {P} (key : EccKey P) : bool :=
  match _d key with
  | Some _ => true
  | None => false
  end.

(** [key.d] *)
Definition key_d {P} (key : EccKey P) : outcome Z :=
  match _d key with
  | Some d => Return d
  | None => Raise (ValueError "This is not a private ECC key")
  end.

(** [key._prefix] *)
Definition key_prefix {P} (key : EccKey P) : outcome bytes :=
  match _prefix key with
  | Some p => Return p
  | None => Raise (AttributeError "'EccKey' object has no attribute '_prefix'")
  end.

(** The operations [eddsa.py] imports from the rest of the package. *)
Class Backend : Type := {
  (** [Crypto.PublicKey.ECC.EccPoint] and its operators *)
  EccPoint : Type;
  point_mul : Z -> EccPoint -> EccPoint;          (* [n * P] *)
  point_add : EccPoint -> EccPoint -> EccPoint;   (* [P + Q] *)
  point_eq : EccPoint -> EccPoint -> bool;        (* [P == Q] *)
  (** the 32-byte encoding written by [EccKey._export_ed25519] *)
  encode_point : EccPoint -> bytes;
  (** [Crypto.PublicKey.ECC._import_ed25519_public_key] *)
  _import_ed25519_public_key : bytes -> outcome (Z * Z);
  (** [Crypto.PublicKey.ECC.construct(curve=c, point_x=x, point_y=y)] *)
  construct : string -> Z -> Z -> outcome (EccKey EccPoint);
  (** [Crypto.PublicKey.ECC.construct(seed=b, curve=c)] *)
  construct_seed : bytes -> string -> outcome (EccKey EccPoint);
  (** [Crypto.Hash.SHA512]: hash objects, [SHA512.new(data)], [h.digest()] *)
  SHA512Hash : Type;
  SHA512_new : bytes -> SHA512Hash;
  digest : SHA512Hash -> bytes
}.

Section EdDSA.

Context {B : Backend}.

Abbreviation Key := (EccKey EccPoint).

(** [key._export_ed25519()] *)
Definition _export_ed25519 (key : Key) : bytes := encode_point (pointQ key).

(** [EccKey(point=p)], a public key on the curve of [p]. *)
Definition EccKey_of_point (c : Curve EccPoint) (p : EccPoint) : Key :=
  mkEccKey c p None None.

(** The Python objects that reach [new], [sign] and [verify] as
    arguments: [PyBytes b] is an object that [is_bytes] accepts, with
    its content, [PySHA512Hash h] an instance of [SHA512.SHA512Hash]. *)
Inductive PyObject : Type :=
| PyNone
| PyBytes (b : bytes)
| PyStr (s : string)
| PyInt (z : Z)
| PySHA512Hash (h : SHA512Hash)
| PyEccKey (k : Key).

(** [isinstance(o, SHA512.SHA512Hash)] *)
Definition isinstance_SHA512Hash (o : PyObject) : bool :=
  match o with
  | PySHA512Hash _ => true
  | _ => false
  end.

(** [Crypto.Util.py3compat.is_bytes] *)
Definition is_bytes (o : PyObject) : bool :=
  match o with
  | PyBytes _ => true
  | _ => false
  end.

(* ================================================================= *)
(** ** Key codec *)

(** [import_public_key(encoded)] *)
Definition import_public_key (encoded : bytes) : outcome Key :=
  obind (_import_ed25519_public_key encoded) (fun xy =>
  construct "Ed25519" (fst xy) (snd xy)).

(** [import_private_key(encoded)] *)
Definition import_private_key (encoded : bytes) : outcome Key :=
  if negb (len encoded =? 32) then
    Raise (ValueError "Incorrect length. Only Ed25519 private keys are supported.")
  else
    construct_seed encoded "ed25519".

(* ================================================================= *)
(** ** The signature object and its methods *)

(** The attributes [__init__] stores in [self]. *)
Record EdDSASigScheme : Type := mkScheme {
  _key : Key;
  _context : bytes;
  _A : bytes;
  _order : Z
}.

(** [EdDSASigScheme.__init__(self, key, context)] *)
Definition __init__ (key : Key) (context : bytes) : EdDSASigScheme :=
  {| _key := key;
     _context := context;
     _A := _export_ed25519 key;
     _order := order (_curve key) |}.

(** A method body: it runs on the object [self], returns or raises,
    and leaves an object behind. *)
Definition Method (A : Type) : Type :=
  EdDSASigScheme -> outcome A * EdDSASigScheme.

Definition ret {A} (a : A) : Method A := fun self => (Return a, self).

Definition raise {A} (e : exn) : Method A := fun self => (Raise e, self).

Definition bind {A C} (m : Method A) (k : A -> Method C) : Method C :=
  fun self =>
    match m self with
    | (Return a, self') => k a self'
    | (Raise e, self') => (Raise e, self')
    end.

(** [self.attr] *)
Definition getattr {A} (attr : EdDSASigScheme -> A) : Method A :=
  fun self => (Return (attr self), self).

(** [self.attr = v], as a state update [upd]. *)
Definition setattr (upd : EdDSASigScheme -> EdDSASigScheme) : Method unit :=
  fun self => (Return tt, upd self).

(** A call to a collaborator that returns or raises. *)
Definition call {A} (o : outcome A) : Method A := fun self => (o, self).

Notation "x <- m ;; k" := (bind m (fun x => k))
  (at level 61, m at next level, right associativity).

Definition result {A} (m : Method A) (self : EdDSASigScheme) : outcome A :=
  fst (m self).

Definition final {A} (m : Method A) (self : EdDSASigScheme) : EdDSASigScheme :=
  snd (m self).

(** [can_sign(self)] *)
Definition can_sign : Method bool :=
  key <- getattr _key ;;
  ret (has_private key).

Definition dom2_tag : bytes :=
  list_byte_of_string "SigEd25519 no Ed25519 collisions".

(** Lines 125-130 of [sign]: the domain-separation prefix. *)
Definition sign_dom2 (ph : bool) : Method bytes :=
  context <- getattr _context ;;
  if truthy context || ph then
    let flag := int ph in
    c_flag <- call (bchr flag) ;;
    context' <- getattr _context ;;
    c_len <- call (bchr (len context')) ;;
    context'' <- getattr _context ;;
    ret (dom2_tag ++ c_flag ++ c_len ++ context'')
  else
    ret [].

(** [h.digest()] on an argument: only hash objects have the method. *)
Definition call_digest (o : PyObject) : outcome bytes :=
  match o with
  | PySHA512Hash h => Return (digest h)
  | _ => Raise (AttributeError "object has no attribute 'digest'")
  end.

(** An argument used as an operand of [bytes] concatenation. *)
Definition as_bytes (o : PyObject) : outcome bytes :=
  match o with
  | PyBytes m => Return m
  | _ => Raise (TypeError "can't concat to bytes")
  end.

(** [msg_or_hash.digest() if ph else msg_or_hash] *)
Definition PHM_of (ph : bool) (msg_or_hash : PyObject) : outcome bytes :=
  if ph then call_digest msg_or_hash else as_bytes msg_or_hash.

(** Lines 142-143 of [sign]: the challenge scalar. *)
Definition sign_challenge (dom2 R_pk PHM : bytes) : Method Z :=
  A <- getattr _A ;;
  let k_hash := digest (SHA512_new (dom2 ++ R_pk ++ A ++ PHM)) in
  order <- getattr _order ;;
  call (Integer.modulo (Integer.from_bytes k_hash) order).

(** [sign(self, msg_or_hash)] *)
Definition sign (msg_or_hash : PyObject) : Method bytes :=
  key <- getattr _key ;;
  if negb (has_private key) then
    raise (TypeError "Private key is needed to sign")
  else
  let ph := isinstance_SHA512Hash msg_or_hash in
  if negb (ph || is_bytes msg_or_hash) then
    raise (TypeError "'msg_or_hash' must be bytes of a SHA-512 hash")
  else
  dom2 <- sign_dom2 ph ;;
  PHM <- call (PHM_of ph msg_or_hash) ;;
  (* Step 2 *)
  key <- getattr _key ;;
  prefix <- call (key_prefix key) ;;
  let r_hash := digest (SHA512_new (dom2 ++ prefix ++ PHM)) in
  order <- getattr _order ;;
  r <- call (Integer.modulo (Integer.from_bytes r_hash) order) ;;
  (* Step 3 *)
  key <- getattr _key ;;
  let R_pk :=
    _export_ed25519 (EccKey_of_point (_curve key) (point_mul r (G (_curve key)))) in
  (* Step 4 *)
  k <- sign_challenge dom2 R_pk PHM ;;
  (* Step 5 *)
  key <- getattr _key ;;
  d <- call (key_d key) ;;
  order <- getattr _order ;;
  s <- call (Integer.modulo (r + k * d) order) ;;
  s_bytes <- call (Integer.to_bytes 32 s) ;;
  ret (R_pk ++ s_bytes).

(** Lines 170-175 of [verify]: the domain-separation prefix. *)
Definition verify_dom2 (ph : bool) : Method bytes :=
  context <- getattr _context ;;
  if truthy context || ph then
    let flag := int ph in
    c_flag <- call (bchr flag) ;;
    context' <- getattr _context ;;
    c_len <- call (bchr (len context')) ;;
    context'' <- getattr _context ;;
    ret (dom2_tag ++ c_flag ++ c_len ++ context'')
  else
    ret [].

(** Lines 188-189 of [verify]: the challenge scalar. *)
Definition verify_challenge (dom2 signature PHM : bytes) : Method Z :=
  A <- getattr _A ;;
  let k_hash :=
    digest (SHA512_new (dom2 ++ slice_to 32 signature ++ A ++ PHM)) in
  order <- getattr _order ;;
  call (Integer.modulo (Integer.from_bytes k_hash) order).

(** [verify(self, msg_or_hash, signature)]; returning means that the
    signature is authentic. *)
Definition verify (msg_or_hash : PyObject) (signature : bytes) : Method unit :=
  if negb (len signature =? 64) then
    raise (ValueError "The signature is not authentic (length)")
  else
  let ph := isinstance_SHA512Hash msg_or_hash in
  if negb (ph || is_bytes msg_or_hash) then
    raise (TypeError "'msg_or_hash' must be bytes of a SHA-512 hash")
  else
  dom2 <- verify_dom2 ph ;;
  PHM <- call (PHM_of ph msg_or_hash) ;;
  (* Step 1 *)
  R_key <- call (except_ValueError (import_public_key (slice_to 32 signature))
                   (ValueError "The signature is not authentic (R)")) ;;
  let R := pointQ R_key in
  let s := Integer.from_bytes (slice_from 32 signature) in
  order <- getattr _order ;;
  if order <? s then
    raise (ValueError "The signature is not authentic (S)")
  else
  (* Step 2 *)
  k <- verify_challenge dom2 signature PHM ;;
  (* Step 3 *)
  key <- getattr _key ;;
  let point1 := point_mul (s * 8) (G (_curve key)) in
  key' <- getattr _key ;;
  let point2 := point_add (point_mul 8 R) (point_mul (k * 8) (pointQ key')) in
  if negb (point_eq point1 point2) then
    raise (ValueError "The signature is not authentic")
  else
    ret tt.

(** [new(key, mode, context=None)] *)
Definition new (key : PyObject) (mode : string) (context : option bytes)
  : outcome EdDSASigScheme :=
  match key with
  | PyEccKey k =>
      if negb (String.eqb (name (_curve k)) "ed25519") then
        Raise (ValueError "EdDSA can only be used with Ed25519 keys")
      else if negb (String.eqb mode "rfc8032") then
        Raise (ValueError "Mode must be 'rfc8032'")
      else
        match context with
        | None => Return (__init__ k [])
        | Some c =>
            if 255 <? len c then
              Raise (ValueError "Context for EdDSA must not be longer than 255 bytes")
            else Return (__init__ k c)
        end
  | _ => Raise (ValueError "EdDSA can only be used with Ed25519 keys")
  end.

(** The public half of a key. *)
Definition public_only (key : Key) : Key :=
  mkEccKey (_curve key) (pointQ key) None None.

(* ================================================================= *)
(** ** Vocabulary of the statements *)

(** A method body that leaves [self] as it found it. *)
Definition read_only {A} (m : Method A) : Prop :=
  forall self, final m self = self.

(** The exceptions of [sign] and [verify], by the name of the failure
    in the specification. *)
Definition private_key_needed : exn := TypeError "Private key is needed to sign".

Definition bad_message_type : exn :=
  TypeError "'msg_or_hash' must be bytes of a SHA-512 hash".

Definition bad_signature_length : exn :=
  ValueError "The signature is not authentic (length)".

Definition not_authentic_R : exn := ValueError "The signature is not authentic (R)".

Definition not_authentic_S : exn := ValueError "The signature is not authentic (S)".

Definition not_authentic : exn := ValueError "The signature is not authentic".

(** The statement of [C8] about a signature object and an argument:
    an argument of an invalid type makes [sign] raise the input-type
    error. *)
Definition type_check_comes_first (self : EdDSASigScheme) (o : PyObject) : Prop :=
  isinstance_SHA512Hash o = false -> is_bytes o = false ->
  result (sign o) self = Raise bad_message_type.

(** An update of [self] that a method could make: a byte more in the
    context. *)
Definition grow_context (self : EdDSASigScheme) : EdDSASigScheme :=
  {| _key := _key self;
     _context := x00 :: _context self;
     _A := _A self;
     _order := _order self |}.

(* ================================================================= *)
(** ** The specification's formulas

    Definitions that follow the wording of the specification (section
    4.2), to be compared with what the methods above compute. *)

(** [hash(bytes) -> bytes[64]] *)
Definition hash (data : bytes) : bytes := digest (SHA512_new data).

(** Step 3 of [sign]: empty when the context is empty and [ph] is
    false, otherwise the tag, [byte(ph?1:0)], [byte(len(context))] and
    the context. *)
Definition spec_dom2 (context : bytes) (ph : bool) : bytes :=
  if (len context =? 0) && negb ph then []
  else dom2_tag ++ [byte_of_Z (if ph then 1 else 0)]
         ++ [byte_of_Z (len context)] ++ context.

(** Steps 5 and 7 of [sign]: a hash output read as a little-endian
    integer and reduced modulo [L]. *)
Definition spec_scalar (L : Z) (h : bytes) : Z := Integer.from_bytes h mod L.

Definition spec_r (L : Z) (dom2 prefix PHM : bytes) : Z :=
  spec_scalar L (hash (dom2 ++ prefix ++ PHM)).

Definition spec_k (L : Z) (dom2 R_bytes A_bytes PHM : bytes) : Z :=
  spec_scalar L (hash (dom2 ++ R_bytes ++ A_bytes ++ PHM)).

(** Steps 5 to 9 of [sign]. *)
Definition spec_signature (L : Z) (Gen : EccPoint) (d : Z)
    (prefix A_bytes context : bytes) (ph : bool) (PHM : bytes) : bytes :=
  let dom2 := spec_dom2 context ph in
  let r := spec_r L dom2 prefix PHM in
  let R := point_mul r Gen in
  let k := spec_k L dom2 (encode_point R) A_bytes PHM in
  let s := (r + k * d) mod L in
  encode_point R ++ Integer.le_digits 32 s.

(** Step 6 of [verify]: the cofactor-cleared equation. *)
Definition spec_equation (Gen A R : EccPoint) (s k : Z) : bool :=
  point_eq (point_mul (8 * s) Gen)
           (point_add (point_mul 8 R) (point_mul (8 * k) A)).

(* ================================================================= *)
(** ** The collaborators' contract

    What the specification requires of the curve arithmetic and of the
    point codec (sections 3, 4.1 and 6).  Each property below is a
    hypothesis of the theorems that rely on it, and of no other. *)

(** Modelled from the spec: [encode_point(Point) -> bytes[32]]. *)
Definition encode_32 : Prop :=
  forall P, List.length (encode_point P) = 32%nat.

(** Modelled from the spec: decoding an encoded point gives the point
    back. *)
Definition decode_encode : Prop :=
  forall P, exists K, import_public_key (encode_point P) = Return K /\ pointQ K = P.

(** The documented failure of [import_public_key]: [ValueError] when
    the key cannot be parsed, and no other exception. *)
Definition import_raises_ValueError : Prop :=
  forall b e, import_public_key b = Raise e -> exists msg, e = ValueError msg.

(** Modelled from the spec: [point_eq(Point, Point) -> bool] holds of
    equal points. *)
Definition point_eq_refl : Prop := forall P, point_eq P P = true.

(** Modelled from the spec: [scalar_mul] and [point_add] are the
    operations of a group; multiplication by a sum and by a product of
    scalars. *)
Definition mul_add_distr : Prop :=
  forall a b P, 0 <= a -> 0 <= b ->
    point_mul (a + b) P = point_add (point_mul a P) (point_mul b P).

Definition mul_mul_assoc : Prop :=
  forall a b P, 0 <= a -> 0 <= b ->
    point_mul (a * b) P = point_mul a (point_mul b P).

(** Modelled from the spec: the group order [L] of the curve table is
    the order of the generator [G] and fits the 32 bytes of an encoded
    scalar. *)
Record curve_contract (c : Curve EccPoint) : Prop := {
  order_pos : 0 < order c;
  order_fits : order c <= 2 ^ 256;
  order_of_G : forall a, 0 <= a -> point_mul (a mod order c) (G c) = point_mul a (G c)
}.

(** Modelled from the spec: a key with private material carries the
    scalar [d], the secret [_prefix] and the public point [A = d * G]. *)
Record private_key (key : Key) (d : Z) (prefix : bytes) : Prop := {
  key_has_d : _d key = Some d;
  key_has_prefix : _prefix key = Some prefix;
  key_d_nonneg : 0 <= d;
  key_public_point : pointQ key = point_mul d (G (_curve key))
}.

(** An argument of [sign] or [verify] of a valid type, with the
    prehash flag and the bytes it stands for. *)
Inductive message : PyObject -> bool -> bytes -> Prop :=
| message_raw (m : bytes) : message (PyBytes m) false m
| message_prehashed (h : SHA512Hash) : message (PySHA512Hash h) true (digest h).

(* ================================================================= *)
(** ** Vocabulary of the further statements *)

(** The statement of [C7] about a signature object, an argument and a
    signature: when the first 32 bytes decode to [K], the challenge of
    [verify] is the one of signing's step 7 on the encoding of the
    decoded point. *)
Definition challenge_of_encoded_R (self : EdDSASigScheme)
    (msg_or_hash : PyObject) (signature : bytes) : Prop :=
  forall (ph : bool) (PHM : bytes) (K : Key),
    len signature = 64 ->
    message msg_or_hash ph PHM ->
    import_public_key (slice_to 32 signature) = Return K ->
    result (verify_challenge (spec_dom2 (_context self) ph) signature PHM) self =
    result (sign_challenge (spec_dom2 (_context self) ph)
              (encode_point (pointQ K)) PHM) self.

(** The context [new] binds: [b''] when it is given [None]. *)
Definition context_or_empty (context : option bytes) : bytes :=
  match context with
  | Some c => c
  | None => []
  end.

(** The failures of [new], of [import_private_key] and of [bchr]. *)
Definition new_bad_key : exn :=
  ValueError "EdDSA can only be used with Ed25519 keys".

Definition new_bad_mode : exn := ValueError "Mode must be 'rfc8032'".

Definition new_long_context : exn :=
  ValueError "Context for EdDSA must not be longer than 255 bytes".

Definition bad_private_key_length : exn :=
  ValueError "Incorrect length. Only Ed25519 private keys are supported.".

Definition bchr_out_of_range : exn :=
  ValueError "bytes must be in range(0, 256)".

(** An argument of [new] that passes its first test: an [EccKey] on the
    curve named ['ed25519']. *)
Definition ed25519_key (key : PyObject) : Prop :=
  exists k, key = PyEccKey k /\ name (_curve k) = "ed25519"%string.

(** Modelled from the spec: [decode_private_key] succeeds on every
    32-byte seed and gives a key with private material on the curve
    [c]. *)
Definition construct_seed_contract (c : Curve EccPoint) : Prop :=
  forall seed, len seed = 32 ->
    exists key d prefix,
      construct_seed seed "ed25519" = Return key /\
      _curve key = c /\ private_key key d prefix.

(** Modelled from the spec: the keys that [import_public_key] returns
    are on the curve [c]. *)
Definition import_on_curve (c : Curve EccPoint) : Prop :=
  forall b K, import_public_key b = Return K -> _curve K = c.

(** Modelled from the spec: [point_eq] holds of equal points only. *)
Definition point_eq_sound : Prop :=
  forall P Q, point_eq P Q = true -> P = Q.

(** Modelled from the spec: [L] is the exact order of [G]. *)
Definition order_exact (c : Curve EccPoint) : Prop :=
  forall a b, 0 <= a -> 0 <= b ->
    point_mul a (G c) = point_mul b (G c) -> a mod order c = b mod order c.

End EdDSA.

(* ================================================================= *)
(** ** Collaborators: SHA-512 *)

(** Modelled from the spec: the 512-bit hash collaborator
    ([Crypto.Hash.SHA512]), as a function from bytes to 64 bytes
    (FIPS 180-4). *)
Module SHA512.

Definition w64 (x : Z) : Z := x mod 2 ^ 64.
Definition add64 (x y : Z) : Z := w64 (x + y).
Definition rotr (n x : Z) : Z := Z.lor (Z.shiftr x n) (w64 (Z.shiftl x (64 - n))).
Definition shr (n x : Z) : Z := Z.shiftr x n.
Definition Ch (x y z : Z) : Z := Z.lxor (Z.land x y) (Z.ldiff z x).
Definition Maj (x y z : Z) : Z :=
  Z.lxor (Z.lxor (Z.land x y) (Z.land x z)) (Z.land y z).
Definition Sigma0 (x : Z) : Z := Z.lxor (Z.lxor (rotr 28 x) (rotr 34 x)) (rotr 39 x).
Definition Sigma1 (x : Z) : Z := Z.lxor (Z.lxor (rotr 14 x) (rotr 18 x)) (rotr 41 x).
Definition sigma0 (x : Z) : Z := Z.lxor (Z.lxor (rotr 1 x) (rotr 8 x)) (shr 7 x).
Definition sigma1 (x : Z) : Z := Z.lxor (Z.lxor (rotr 19 x) (rotr 61 x)) (shr 6 x).

Definition H0 : list Z :=
  [ 0x6a09e667f3bcc908; 0xbb67ae8584caa73b; 0x3c6ef372fe94f82b; 0xa54ff53a5f1d36f1; 0x510e527fade682d1; 0x9b05688c2b3e6c1f; 0x1f83d9abfb41bd6b; 0x5be0cd19137e2179 ].

Definition K : list Z :=
  [
  0x428a2f98d728ae22; 0x7137449123ef65cd; 0xb5c0fbcfec4d3b2f; 0xe9b5dba58189dbbc;
  0x3956c25bf348b538; 0x59f111f1b605d019; 0x923f82a4af194f9b; 0xab1c5ed5da6d8118;
  0xd807aa98a3030242; 0x12835b0145706fbe; 0x243185be4ee4b28c; 0x550c7dc3d5ffb4e2;
  0x72be5d74f27b896f; 0x80deb1fe3b1696b1; 0x9bdc06a725c71235; 0xc19bf174cf692694;
  0xe49b69c19ef14ad2; 0xefbe4786384f25e3; 0x0fc19dc68b8cd5b5; 0x240ca1cc77ac9c65;
  0x2de92c6f592b0275; 0x4a7484aa6ea6e483; 0x5cb0a9dcbd41fbd4; 0x76f988da831153b5;
  0x983e5152ee66dfab; 0xa831c66d2db43210; 0xb00327c898fb213f; 0xbf597fc7beef0ee4;
  0xc6e00bf33da88fc2; 0xd5a79147930aa725; 0x06ca6351e003826f; 0x142929670a0e6e70;
  0x27b70a8546d22ffc; 0x2e1b21385c26c926; 0x4d2c6dfc5ac42aed; 0x53380d139d95b3df;
  0x650a73548baf63de; 0x766a0abb3c77b2a8; 0x81c2c92e47edaee6; 0x92722c851482353b;
  0xa2bfe8a14cf10364; 0xa81a664bbc423001; 0xc24b8b70d0f89791; 0xc76c51a30654be30;
  0xd192e819d6ef5218; 0xd69906245565a910; 0xf40e35855771202a; 0x106aa07032bbd1b8;
  0x19a4c116b8d2d0c8; 0x1e376c085141ab53; 0x2748774cdf8eeb99; 0x34b0bcb5e19b48a8;
  0x391c0cb3c5c95a63; 0x4ed8aa4ae3418acb; 0x5b9cca4f7763e373; 0x682e6ff3d6b2b8a3;
  0x748f82ee5defb2fc; 0x78a5636f43172f60; 0x84c87814a1f0ab72; 0x8cc702081a6439ec;
  0x90befffa23631e28; 0xa4506cebde82bde9; 0xbef9a3f7b2c67915; 0xc67178f2e372532b;
  0xca273eceea26619c; 0xd186b8c721c0c207; 0xeada7dd6cde0eb1e; 0xf57d4f7fee6ed178;
  0x06f067aa72176fba; 0x0a637dc5a2c898a6; 0x113f9804bef90dae; 0x1b710b35131c471b;
  0x28db77f523047d84; 0x32caab7b40c72493; 0x3c9ebe0a15c9bebc; 0x431d67c49c100d4c;
  0x4cc5d4becb3e42b6; 0x597f299cfc657e2a; 0x5fcb6fab3ad6faec; 0x6c44198c4a475817
  ].

(** Big-endian integer of a byte string, and back on [n] bytes. *)
Definition be_int (b : bytes) : Z :=
  fold_left (fun acc x => 256 * acc + Z_of_byte x) b 0.

Fixpoint be_bytes (n : nat) (v : Z) : bytes :=
  match n with
  | O => []
  | S n' => be_bytes n' (v / 256) ++ [byte_of_Z v]
  end.

(** Padding: a [0x80] byte, zeros up to 112 modulo 128, the bit length
    on 16 bytes. *)
Definition pad (data : bytes) : bytes :=
  let l := Z.of_nat (List.length data) in
  let zeros := Z.to_nat ((111 - l) mod 128) in
  data ++ [byte_of_Z 128] ++ repeat x00 zeros ++ be_bytes 16 (8 * l).

Fixpoint chunks (fuel n : nat) (b : bytes) : list bytes :=
  match fuel with
  | O => []
  | S fuel' =>
      match b with
      | [] => []
      | _ => firstn n b :: chunks fuel' n (skipn n b)
      end
  end.

Definition words_of (block : bytes) : list Z :=
  map be_int (chunks 16 8 block).

(** One round: [st] holds [a..h], [win] the sixteen schedule words
    [W_t .. W_{t+15}]. *)
Definition round (acc : list Z * list Z) (k : Z) : list Z * list Z :=
  let '(st, win) := acc in
  match st with
  | [a; b; c; d; e; f; g; h] =>
      let w := nth 0 win 0 in
      let t1 := add64 (add64 (add64 (add64 h (Sigma1 e)) (Ch e f g)) k) w in
      let t2 := add64 (Sigma0 a) (Maj a b c) in
      let wnew :=
        add64 (add64 (add64 (sigma1 (nth 14 win 0)) (nth 9 win 0))
                     (sigma0 (nth 1 win 0))) w in
      ([add64 t1 t2; a; b; c; add64 d t1; e; f; g], tl win ++ [wnew])
  | _ => acc
  end.

Definition compress (h : list Z) (block : bytes) : list Z :=
  let '(st, _) := fold_left round K (h, words_of block) in
  map (fun p => add64 (fst p) (snd p)) (combine h st).

Definition sha512 (data : bytes) : bytes :=
  let padded := pad data in
  let blocks := chunks (List.length padded) 128 padded in
  flat_map (be_bytes 8) (fold_left compress blocks H0).

End SHA512.

(** A byte string written in hexadecimal. *)
Definition nibble (c : Ascii.ascii) : Z :=
  let n := Z.of_nat (Ascii.nat_of_ascii c) in
  if (48 <=? n) && (n <=? 57) then n - 48
  else if (97 <=? n) && (n <=? 102) then n - 87
  else 0.

Fixpoint nibbles (s : string) : list Z :=
  match s with
  | EmptyString => []
  | String c rest => nibble c :: nibbles rest
  end.

Fixpoint pair_up (l : list Z) : bytes :=
  match l with
  | hi :: lo :: rest => byte_of_Z (16 * hi + lo) :: pair_up rest
  | _ => []
  end.

Definition unhex (s : string) : bytes := pair_up (nibbles s).

(** Modelled from the spec: the private scalar derived from the first
    half of the seed's hash (RFC 8032, section 5.1.5): the three lowest
    bits and the highest bit cleared, the second highest bit set. *)
Definition clamp (v : Z) : Z := v mod 2 ^ 254 - v mod 8 + 2 ^ 254.

(* ================================================================= *)
(** ** Collaborators: the group generated by [G], by discrete logarithm

    Modelled from the spec: the curve-arithmetic collaborator on the
    subgroup that [G] generates, which is cyclic of prime order [L].
    This backend writes a point by its logarithm in base [G], an
    integer modulo [L], so that the group laws the protocol relies on
    are theorems. *)

Module Cyclic.

Definition L : Z := 2 ^ 252 + 27742317777372353535851937790883648493.

Definition Point : Type := Zmod L.

Definition mul (n : Z) (P : Point) : Point := Zmod.of_Z L (n * Zmod.to_Z P).

Definition curve : Curve Point := mkCurve "ed25519" (Zmod.of_Z L 1) L.

Definition encode (P : Point) : bytes := Integer.le_digits 32 (Zmod.to_Z P).

(** A point is decoded as the pair of its logarithm and [0]. *)
Definition decode (b : bytes) : outcome (Z * Z) :=
  if negb (len b =? 32) then
    Raise (ValueError "Incorrect length. Only Ed25519 public keys are supported.")
  else if L <=? Integer.from_bytes b then
    Raise (ValueError "Invalid Ed25519 public key")
  else Return (Integer.from_bytes b, 0).

Definition construct_xy (c : string) (x y : Z) : outcome (EccKey Point) :=
  Return (mkEccKey curve (Zmod.of_Z L x) None None).

(** The key of a seed: [d] is the clamped first half of the seed's
    hash, [_prefix] the second half, and the public point is [d * G]. *)
Definition seed_d (seed : bytes) : Z :=
  clamp (Integer.from_bytes (firstn 32 (SHA512.sha512 seed))).

Definition seed_prefix (seed : bytes) : bytes := skipn 32 (SHA512.sha512 seed).

Definition key_of_seed (seed : bytes) : EccKey Point :=
  mkEccKey curve (mul (seed_d seed) (G curve))
    (Some (seed_d seed)) (Some (seed_prefix seed)).

Definition construct_of_seed (seed : bytes) (c : string) : outcome (EccKey Point) :=
  Return (key_of_seed seed).

(** A hash object is the data it has absorbed. *)
Definition backend : Backend := {|
  EccPoint := Point;
  point_mul := mul;
  point_add := Zmod.add;
  point_eq := Zmod.eqb;
  encode_point := encode;
  _import_ed25519_public_key := decode;
  construct := construct_xy;
  construct_seed := construct_of_seed;
  SHA512Hash := bytes;
  SHA512_new := fun data => data;
  digest := SHA512.sha512
|}.

End Cyclic.

(* ================================================================= *)
(** ** Collaborators: the curve Ed25519

    Modelled from the spec: the curve-arithmetic collaborator
    ([Crypto.PublicKey.ECC]) on the twisted Edwards curve
    [-x^2 + y^2 = 1 + d x^2 y^2] over the field of [2^255 - 19]
    elements, with the point codec of RFC 8032, section 5.1, and the
    decoder's shortcut for [y = 1].  Points
    are pairs of affine coordinates; the field arithmetic runs on
    [bigZ]. *)

Module Ed25519.

Definition q : Z := 2 ^ 255 - 19.

Definition p : bigZ := BigZ.of_Z q.

Definition L : Z := 2 ^ 252 + 27742317777372353535851937790883648493.

Definition fmul (a b : bigZ) : bigZ := ((a * b) mod p)%bigZ.

Fixpoint pow_pos (b : bigZ) (e : positive) : bigZ :=
  match e with
  | xH => (b mod p)%bigZ
  | xO e' => let h := pow_pos b e' in fmul h h
  | xI e' => let h := pow_pos b e' in fmul (fmul h h) b
  end.

Definition powmod (b : bigZ) (e : Z) : bigZ :=
  match e with
  | Zpos e' => pow_pos b e'
  | _ => 1%bigZ
  end.

Definition inv (x : bigZ) : bigZ := powmod x (2 ^ 255 - 21).

Definition d : bigZ := fmul (-121665)%bigZ (inv 121666%bigZ).

(** Extended homogeneous coordinates [(X, Y, Z, T)]. *)
Definition ext : Type := (bigZ * bigZ * bigZ * bigZ)%type.

Definition ext_add (P Q : ext) : ext :=
  let '(X1, Y1, Z1, T1) := P in
  let '(X2, Y2, Z2, T2) := Q in
  let A := fmul (Y1 - X1) (Y2 - X2) in
  let B := fmul (Y1 + X1) (Y2 + X2) in
  let C := fmul (fmul (fmul T1 2) d) T2 in
  let D := fmul (fmul Z1 2) Z2 in
  let E := (B - A)%bigZ in
  let F := (D - C)%bigZ in
  let G := (D + C)%bigZ in
  let H := (B + A)%bigZ in
  (fmul E F, fmul G H, fmul F G, fmul E H).

Definition ext_zero : ext := (0, 1, 1, 0)%bigZ.

Fixpoint ext_mul_pos (n : positive) (P : ext) : ext :=
  match n with
  | xH => P
  | xO n' => let Q := ext_mul_pos n' P in ext_add Q Q
  | xI n' => let Q := ext_mul_pos n' P in ext_add (ext_add Q Q) P
  end.

Definition ext_mul (n : Z) (P : ext) : ext :=
  match n with
  | Zpos n' => ext_mul_pos n' P
  | _ => ext_zero
  end.

Definition Point : Type := (Z * Z)%type.

Definition of_affine (P : Point) : ext :=
  let x := BigZ.of_Z (fst P) in
  let y := BigZ.of_Z (snd P) in
  (x, y, 1%bigZ, fmul x y).

Definition to_affine (P : ext) : Point :=
  let '(X, Y, Z, _) := P in
  let zi := inv Z in
  (BigZ.to_Z (fmul X zi), BigZ.to_Z (fmul Y zi)).

Definition mul (n : Z) (P : Point) : Point :=
  to_affine (ext_mul n (of_affine P)).

Definition add (P Q : Point) : Point :=
  to_affine (ext_add (of_affine P) (of_affine Q)).

Definition eqb (P Q : Point) : bool :=
  (fst P =? fst Q) && (snd P =? snd Q).

Definition on_curve (P : Point) : bool :=
  let x := BigZ.of_Z (fst P) in
  let y := BigZ.of_Z (snd P) in
  let xx := fmul x x in
  let yy := fmul y y in
  BigZ.eqb ((yy - xx) mod p)%bigZ ((1 + fmul d (fmul xx yy)) mod p)%bigZ.

(** The base point: [y = 4/5], [x] even. *)
Definition Gy : Z := BigZ.to_Z (fmul 4 (inv 5)).

Definition Gx : Z :=
  15112221349535400772501151409588531511454012693041857206046113283949847762202.

Definition curve : Curve Point := mkCurve "ed25519" (Gx, Gy) L.

(** [y] on 255 bits, little-endian, and the parity of [x] in the top
    bit. *)
Definition encode (P : Point) : bytes :=
  Integer.le_digits 32 (snd P + 2 ^ 255 * (fst P mod 2)).

(** RFC 8032, section 5.1.3, step 2: [x^2 = (y^2 - 1) / (d y^2 + 1)]. *)
Definition x_squared (y : Z) : bigZ :=
  let yy := fmul (BigZ.of_Z y) (BigZ.of_Z y) in
  let u := ((yy - 1) mod p)%bigZ in
  let w := ((fmul d yy + 1) mod p)%bigZ in
  fmul u (inv w).

(** Step 3: the candidate square root [x2^((p+3)/8)], multiplied by
    [2^((p-1)/4)] when its square is not [x2]. *)
Definition root_candidate (x2 : bigZ) : bigZ :=
  let x := powmod x2 (2 ^ 252 - 2) in
  if BigZ.eqb (fmul x x) x2 then x
  else fmul x (powmod 2 (2 ^ 253 - 5)).

(** Step 4: no [x = 0] of odd parity; [x] or [q - x], whichever has
    the parity asked for. *)
Definition choose_sign (x sign : Z) : option Z :=
  if (x =? 0) && (sign =? 1) then None
  else Some (if x mod 2 =? sign then x else q - x).

(** Steps 3 and 4: the [x] of a point from its [y] and the parity of
    [x], when there is one. *)
Definition recover_x (y sign : Z) : option Z :=
  let x2 := x_squared y in
  let x := root_candidate x2 in
  if negb (BigZ.eqb (fmul x x) x2) then None
  else choose_sign (BigZ.to_Z x) sign.

(** The decoder of [Crypto.PublicKey.ECC]: RFC 8032, section 5.1.3,
    with one shortcut of its own.  When [y] is [1] it returns the
    neutral point [(0, 1)] without a look at the top bit, so the 32
    bytes [01 00 .. 00 80] decode, to the point whose encoding is
    [01 00 .. 00 00]. *)
Definition decode (b : bytes) : outcome (Z * Z) :=
  if negb (len b =? 32) then
    Raise (ValueError "Incorrect length. Only Ed25519 public keys are supported.")
  else
    let v := Integer.from_bytes b in
    let y := v mod 2 ^ 255 in
    let sign := v / 2 ^ 255 in
    if q <=? y then Raise (ValueError "Invalid Ed25519 key (y)")
    else if y =? 1 then Return (0, 1)
    else
      match recover_x y sign with
      | Some x => Return (x, y)
      | None => Raise (ValueError "Invalid Ed25519 public key")
      end.

Definition construct_xy (c : string) (x y : Z) : outcome (EccKey Point) :=
  if on_curve (x, y) then Return (mkEccKey curve (x, y) None None)
  else Raise (ValueError "The EC point does not belong to the curve").

(** The key of a seed: [d] is the clamped first half of the seed's
    hash, [_prefix] the second half, and the public point is [d * G]. *)
Definition seed_d (seed : bytes) : Z :=
  clamp (Integer.from_bytes (firstn 32 (SHA512.sha512 seed))).

Definition seed_prefix (seed : bytes) : bytes := skipn 32 (SHA512.sha512 seed).

Definition key_of_seed (seed : bytes) : EccKey Point :=
  mkEccKey curve (mul (seed_d seed) (G curve))
    (Some (seed_d seed)) (Some (seed_prefix seed)).

Definition construct_of_seed (seed : bytes) (c : string) : outcome (EccKey Point) :=
  Return (key_of_seed seed).

(** A hash object is the data it has absorbed. *)
Definition backend : Backend := {|
  EccPoint := Point;
  point_mul := mul;
  point_add := add;
  point_eq := eqb;
  encode_point := encode;
  _import_ed25519_public_key := decode;
  construct := construct_xy;
  construct_seed := construct_of_seed;
  SHA512Hash := bytes;
  SHA512_new := fun data => data;
  digest := SHA512.sha512
|}.

End Ed25519.

(* ================================================================= *)
(** ** Test data *)

(** RFC 8032, section 7.1, test 1: seed, public key and the signature
    of the empty message. *)
Definition rfc_seed : bytes :=
  unhex "9d61b19deffd5a60ba844af492ec2cc44449c5697b326919703bac031cae7f60".

Definition rfc_public : bytes :=
  unhex "d75a980182b10ab7d54bfed3c964073a0ee172f3daa62325af021a68f707511a".

Definition rfc_signature : bytes :=
  unhex "e5564300c360ac729086e2cc806e828a84877f1eb8e5d974d873e06522490155"
  ++ unhex "5fb8821590a33bacc61e39701cf9b46bd25bf5f0595bbe24655141438e7a100b".

Definition rfc_key : EccKey Ed25519.Point := Ed25519.key_of_seed rfc_seed.

Definition rfc_scheme : @EdDSASigScheme Ed25519.backend :=
  @__init__ Ed25519.backend rfc_key [].

(** The point decoded from the first half of [rfc_signature]. *)
Definition rfc_R_xy : Z * Z :=
  Eval vm_compute in
    match Ed25519.decode (firstn 32 rfc_signature) with
    | Return xy => xy
    | Raise _ => (0, 1)
    end.

Definition rfc_R : EccKey Ed25519.Point :=
  mkEccKey Ed25519.curve rfc_R_xy None None.

(** RFC 8032, section 7.2: a signature with the context ["foo"]. *)
Definition ctx_seed : bytes :=
  unhex "0305334e381af78f141cb666f6199f57bc3495335a256a95bd2a55bf546663f6".

Definition ctx_message : bytes := unhex "f726936d19c800494e3fdaff20b276a8".

Definition ctx_signature : bytes :=
  unhex "55a4cc2f70a54e04288c5f4cd1e45a7bb520b36292911876cada7323198dd87a"
  ++ unhex "8b36950b95130022907a7fb7c4e9b2d5f6cca685a587b4b21f4b888e4e7edb0d".

Definition ctx_scheme : @EdDSASigScheme Ed25519.backend :=
  @__init__ Ed25519.backend (Ed25519.key_of_seed ctx_seed)
    (list_byte_of_string "foo").

(** RFC 8032, section 7.3: a signature of the SHA-512 hash of ["abc"]. *)
Definition ph_seed : bytes :=
  unhex "833fe62409237b9d62ec77587520911e9a759cec1d19755b7da901b96dca3d42".

Definition ph_signature : bytes :=
  unhex "98a70222f0b8121aa9d30f813d683f809e462b469c7ff87639499bb94e6dae41"
  ++ unhex "31f85042463c2a355a2003d062adf5aaa10b8c61e636062aaad11c2a26083406".

Definition ph_scheme : @EdDSASigScheme Ed25519.backend :=
  @__init__ Ed25519.backend (Ed25519.key_of_seed ph_seed) [].

(** The encoding of the neutral point [(0, 1)], the key it decodes to,
    and a signature made of this encoding and of the group order. *)
Definition neutral_encoding : bytes :=
  unhex "0100000000000000000000000000000000000000000000000000000000000000".

Definition neutral_key : EccKey Ed25519.Point :=
  mkEccKey Ed25519.curve (0, 1) None None.

Definition neutral_scheme : @EdDSASigScheme Ed25519.backend :=
  @__init__ Ed25519.backend neutral_key [].

Definition order_signature : bytes :=
  neutral_encoding ++ Integer.le_digits 32 Ed25519.L.

(** Thirty-two bytes that decode without being the encoding of a
    point: [y = 1] with the top bit set.  They decode to the neutral
    point, so under [rfc_key] the equation of [verify] holds of them
    and of [s = k * d mod L], with [k] the challenge of these very
    bytes; [encoded_k] is the challenge of the neutral point's
    encoding. *)
Definition noncanonical_R : bytes :=
  unhex "0100000000000000000000000000000000000000000000000000000000000080".

Definition noncanonical_k : Z :=
  @spec_k Ed25519.backend Ed25519.L [] noncanonical_R rfc_public [].

Definition encoded_k : Z :=
  @spec_k Ed25519.backend Ed25519.L [] neutral_encoding rfc_public [].

Definition noncanonical_signature : bytes :=
  noncanonical_R
  ++ Integer.le_digits 32
       ((noncanonical_k * Ed25519.seed_d rfc_seed) mod Ed25519.L).

(** The same seed in the backend of logarithms. *)
Definition cyclic_key : EccKey Cyclic.Point := Cyclic.key_of_seed rfc_seed.

Definition cyclic_scheme : @EdDSASigScheme Cyclic.backend :=
  @__init__ Cyclic.backend cyclic_key (list_byte_of_string "foo").

(** A context of 256 bytes, one more than [new] accepts, and an object
    that holds it. *)
Definition long_context : bytes := repeat x00 256.

Definition long_scheme : @EdDSASigScheme Ed25519.backend :=
  @__init__ Ed25519.backend rfc_key long_context.

(** A signature whose first half is no point ([y = 2^255 - 1]), and the
    first half of [rfc_signature] followed by the scalar [L + 1]. *)
Definition undecodable_signature : bytes := repeat xff 64.

Definition above_order_signature : bytes :=
  firstn 32 rfc_signature ++ Integer.le_digits 32 (Ed25519.L + 1).

(** In the backend of logarithms: the key of the neutral point and two
    signatures with the first half of the neutral point, of scalar [0]
    and of scalar [L]. *)
Definition cyclic_neutral_scheme : @EdDSASigScheme Cyclic.backend :=
  @__init__ Cyclic.backend
    (mkEccKey Cyclic.curve (Zmod.of_Z Cyclic.L 0) None None) [].

Definition cyclic_zero_signature : bytes :=
  Integer.le_digits 32 0 ++ Integer.le_digits 32 0.

Definition cyclic_order_signature : bytes :=
  Integer.le_digits 32 0 ++ Integer.le_digits 32 Cyclic.L.

(* ================================================================= *)
(** ** Bytes and integers *)

Lemma Z_of_byte_range (b : byte) : 0 <= Z_of_byte b < 256.
Proof.
  unfold Z_of_byte. pose proof (Byte.to_N_bounded b) as Hb. lia.
Qed.

Lemma Z_of_byte_of_Z (z : Z) : Z_of_byte (byte_of_Z z) = z mod 256.
Proof.
  unfold Z_of_byte, byte_of_Z.
  assert (Hr : 0 <= z mod 256 < 256) by (apply Z.mod_pos_bound; lia).
  destruct (Byte.of_N (Z.to_N (z mod 256))) as [b|] eqn:E.
  - apply Byte.to_of_N in E. rewrite E. lia.
  - apply Byte.of_N_None_iff in E. lia.
Qed.

Lemma byte_of_Z_of_byte (b : byte) : byte_of_Z (Z_of_byte b) = b.
Proof.
  unfold byte_of_Z. rewrite Z.mod_small by apply Z_of_byte_range.
  unfold Z_of_byte. rewrite N2Z.id, Byte.of_to_N. reflexivity.
Qed.

Lemma le_digits_length (n : nat) (v : Z) :
  List.length (Integer.le_digits n v) = n.
Proof.
  revert v. induction n as [|n IH]; intros v; simpl; [reflexivity|].
  now rewrite IH.
Qed.

Lemma from_bytes_range (b : bytes) :
  0 <= Integer.from_bytes b < 256 ^ Z.of_nat (List.length b).
Proof.
  induction b as [|x b IH].
  - simpl. lia.
  - cbn [Integer.from_bytes List.length].
    rewrite Nat2Z.inj_succ, Z.pow_succ_r by lia.
    pose proof (Z_of_byte_range x). lia.
Qed.

Lemma from_bytes_le_digits (n : nat) (v : Z) :
  0 <= v < 256 ^ Z.of_nat n ->
  Integer.from_bytes (Integer.le_digits n v) = v.
Proof.
  revert v. induction n as [|n IH]; intros v Hv.
  - simpl in *. lia.
  - cbn [Integer.le_digits Integer.from_bytes].
    rewrite Nat2Z.inj_succ, Z.pow_succ_r in Hv by lia.
    rewrite Z_of_byte_of_Z, IH.
    + pose proof (Z.div_mod v 256). lia.
    + split; [apply Z.div_pos; lia|].
      apply Z.div_lt_upper_bound; lia.
Qed.

Lemma le_digits_from_bytes (b : bytes) :
  Integer.le_digits (List.length b) (Integer.from_bytes b) = b.
Proof.
  induction b as [|x b IH]; [reflexivity|].
  cbn [List.length Integer.le_digits Integer.from_bytes].
  pose proof (Z_of_byte_range x) as Hx.
  set (y := Integer.from_bytes b) in *.
  replace (Z_of_byte x + 256 * y) with (Z_of_byte x + y * 256) by lia.
  f_equal.
  - unfold byte_of_Z. rewrite Z.mod_add by lia.
    apply byte_of_Z_of_byte.
  - rewrite Z.div_add by lia.
    rewrite (Z.div_small (Z_of_byte x)) by lia. exact IH.
Qed.

Lemma slice_to_app (a b : bytes) (n : nat) :
  List.length a = n -> slice_to n (a ++ b) = a.
Proof.
  intros <-. unfold slice_to.
  rewrite firstn_app, Nat.sub_diag, firstn_all. simpl. apply app_nil_r.
Qed.

Lemma slice_from_app (a b : bytes) (n : nat) :
  List.length a = n -> slice_from n (a ++ b) = b.
Proof.
  intros <-. unfold slice_from.
  rewrite skipn_app, Nat.sub_diag, skipn_all. reflexivity.
Qed.

Lemma modulo_ok (a m : Z) : m <> 0 -> Integer.modulo a m = Return (a mod m).
Proof.
  intros Hm. unfold Integer.modulo.
  destruct (Z.eqb_spec m 0); [contradiction|reflexivity].
Qed.

Lemma to_bytes_ok (n : nat) (v : Z) :
  0 <= v < 256 ^ Z.of_nat n ->
  Integer.to_bytes n v = Return (Integer.le_digits n v).
Proof.
  intros Hv. unfold Integer.to_bytes.
  destruct (Z.ltb_spec v 0); [lia|].
  destruct (Z.leb_spec (256 ^ Z.of_nat n) v); [lia|reflexivity].
Qed.

Lemma bchr_ok (n : Z) : 0 <= n < 256 -> bchr n = Return [byte_of_Z n].
Proof.
  intros Hn. unfold bchr.
  destruct (Z.leb_spec 0 n); [|lia].
  destruct (Z.ltb_spec n 256); [reflexivity|lia].
Qed.

Lemma truthy_len (b : bytes) : truthy b = negb (len b =? 0).
Proof. destruct b; reflexivity. Qed.

(* ================================================================= *)
(** ** Method bodies that only read [self] *)

Section Properties.

Context {B : Backend}.

Lemma read_only_ret {A} (a : A) : read_only (ret a).
Proof. intros self. reflexivity. Qed.

Lemma read_only_raise {A} (e : exn) : read_only (@raise _ A e).
Proof. intros self. reflexivity. Qed.

Lemma read_only_getattr {A} (attr : EdDSASigScheme -> A) :
  read_only (getattr attr).
Proof. intros self. reflexivity. Qed.

Lemma read_only_call {A} (o : outcome A) : read_only (call o).
Proof. intros self. reflexivity. Qed.

Lemma read_only_bind {A C} (m : Method A) (k : A -> Method C) :
  read_only m -> (forall a, read_only (k a)) -> read_only (bind m k).
Proof.
  intros Hm Hk self. specialize (Hm self).
  unfold final, bind in *.
  destruct (m self) as [[a|e] self'] eqn:E; simpl in Hm; subst self'.
  - apply Hk.
  - reflexivity.
Qed.

Ltac read_only_step :=
  first
    [ apply read_only_ret
    | apply read_only_raise
    | apply read_only_getattr
    | apply read_only_call
    | apply read_only_bind; [|intros ?]
    | match goal with
      | |- read_only (if ?c then _ else _) => destruct c
      end ].

Lemma sign_dom2_read_only (ph : bool) : read_only (sign_dom2 ph).
Proof. unfold sign_dom2. repeat read_only_step. Qed.

Lemma verify_dom2_read_only (ph : bool) : read_only (verify_dom2 ph).
Proof. unfold verify_dom2. repeat read_only_step. Qed.

Lemma sign_challenge_read_only (dom2 R_pk PHM : bytes) :
  read_only (sign_challenge dom2 R_pk PHM).
Proof. unfold sign_challenge. repeat read_only_step. Qed.

Lemma verify_challenge_read_only (dom2 signature PHM : bytes) :
  read_only (verify_challenge dom2 signature PHM).
Proof. unfold verify_challenge. repeat read_only_step. Qed.

Lemma can_sign_read_only : read_only can_sign.
Proof. unfold can_sign. repeat read_only_step. Qed.

Lemma sign_read_only (msg_or_hash : PyObject) : read_only (sign msg_or_hash).
Proof.
  unfold sign.
  repeat first
    [ apply sign_dom2_read_only
    | apply sign_challenge_read_only
    | read_only_step ].
Qed.

Lemma verify_read_only (msg_or_hash : PyObject) (signature : bytes) :
  read_only (verify msg_or_hash signature).
Proof.
  unfold verify.
  repeat first
    [ apply verify_dom2_read_only
    | apply verify_challenge_read_only
    | read_only_step ].
Qed.

(** An assignment to an attribute is not read-only. *)
Lemma setattr_writes (self : EdDSASigScheme) :
  final (setattr grow_context) self <> self.
Proof.
  intros H. apply (f_equal (fun o => List.length (_context o))) in H.
  cbn in H. lia.
Qed.

(** [C10] A signature object is immutable after construction: a call
    to [sign] or to [verify], whether it returns or raises, leaves the
    object as it was, key, context, cached [_A] and stored [_order]
    included. *)
Theorem sign_verify_leave_scheme_unchanged :
  forall (self : EdDSASigScheme) (msg_or_hash : PyObject) (signature : bytes),
    let after_sign := final (sign msg_or_hash) self in
    let after_verify := final (verify msg_or_hash signature) self in
    (after_sign = self /\ after_verify = self) /\
    (_key after_sign = _key self /\ _context after_sign = _context self /\
     _A after_sign = _A self /\ _order after_sign = _order self) /\
    (_key after_verify = _key self /\ _context after_verify = _context self /\
     _A after_verify = _A self /\ _order after_verify = _order self).
Proof.
  intros self msg_or_hash signature after_sign after_verify.
  assert (Hs : after_sign = self) by apply sign_read_only.
  assert (Hv : after_verify = self) by apply verify_read_only.
  rewrite Hs, Hv. repeat split.
Qed.

(* ================================================================= *)
(** ** Domain separation *)

Lemma run_sign_dom2 (self : EdDSASigScheme) (ph : bool) :
  len (_context self) <= 255 ->
  sign_dom2 ph self = (Return (spec_dom2 (_context self) ph), self).
Proof.
  intros Hlen.
  assert (Hc : bchr (len (_context self)) = Return [byte_of_Z (len (_context self))])
    by (apply bchr_ok; unfold len in *; lia).
  unfold sign_dom2, spec_dom2, bind, getattr, call, ret.
  rewrite truthy_len.
  destruct (len (_context self) =? 0), ph; cbn [negb orb andb int];
    try reflexivity; rewrite Hc; reflexivity.
Qed.

Lemma sign_verify_dom2 (ph : bool) (self : EdDSASigScheme) :
  sign_dom2 ph self = verify_dom2 ph self.
Proof. reflexivity. Qed.

Lemma spec_dom2_empty (context : bytes) (ph : bool) :
  spec_dom2 context ph = [] <-> context = [] /\ ph = false.
Proof.
  unfold spec_dom2. destruct context as [|c ctx], ph; cbn.
  - split; [intros H; discriminate H | intros [_ H]; discriminate H].
  - split; [auto | reflexivity].
  - split; [intros H; discriminate H | intros [H _]; discriminate H].
  - split; [intros H; discriminate H | intros [H _]; discriminate H].
Qed.

(** [C5] [sign] and [verify] build the same domain-separation prefix
    from the bound context and the prehash flag, for every pair of
    them: it is empty exactly when the context is empty and [ph] is
    false, and otherwise it is the tag followed by [byte(ph ? 1 : 0)],
    [byte(len(context))] and the context. *)
Theorem dom2_sign_verify_agree :
  forall (self : EdDSASigScheme) (ph : bool),
    sign_dom2 ph self = verify_dom2 ph self /\
    (len (_context self) <= 255 ->
     exists dom2,
       result (sign_dom2 ph) self = Return dom2 /\
       result (verify_dom2 ph) self = Return dom2 /\
       dom2 = spec_dom2 (_context self) ph /\
       (dom2 = [] <-> _context self = [] /\ ph = false) /\
       (dom2 <> [] ->
        dom2 = dom2_tag ++ [byte_of_Z (int ph)]
                 ++ [byte_of_Z (len (_context self))] ++ _context self)).
Proof.
  intros self ph. split; [apply sign_verify_dom2|].
  intros Hlen. exists (spec_dom2 (_context self) ph).
  pose proof (sign_verify_dom2 ph self) as Hsv.
  unfold result. rewrite <- Hsv, run_sign_dom2 by assumption.
  cbn [fst].
  split; [reflexivity|]. split; [reflexivity|]. split; [reflexivity|].
  split; [apply spec_dom2_empty|].
  unfold spec_dom2, int.
  destruct ((len (_context self) =? 0) && negb ph); [intros H; now elim H|].
  reflexivity.
Qed.

(* ================================================================= *)
(** ** The order of the checks *)

(** [C8], amended.  In [sign] the private-key check is the first step:
    without a private half [sign] raises the private-key error on every
    argument, of a valid type or not; with a private half an argument
    that is neither [bytes] nor a SHA-512 hash object raises the
    input-type error. *)
Theorem sign_private_check_precedes_type_check :
  forall (self : EdDSASigScheme) (msg_or_hash : PyObject),
    (has_private (_key self) = false ->
       result (sign msg_or_hash) self = Raise private_key_needed) /\
    (has_private (_key self) = true ->
       isinstance_SHA512Hash msg_or_hash = false ->
       is_bytes msg_or_hash = false ->
       result (sign msg_or_hash) self = Raise bad_message_type).
Proof.
  intros self msg_or_hash. split.
  - intros Hpub. unfold result, sign, bind, getattr. cbn. now rewrite Hpub.
  - intros Hpriv Hh Hb. unfold result, sign, bind, getattr. cbn.
    now rewrite Hpriv, Hh, Hb.
Qed.

(* ================================================================= *)
(** ** What [sign] and [verify] compute *)

Lemma run_sign_challenge (self : EdDSASigScheme) (dom2 R_pk PHM : bytes) :
  _order self <> 0 ->
  sign_challenge dom2 R_pk PHM self =
    (Return (spec_k (_order self) dom2 R_pk (_A self) PHM), self).
Proof.
  intros HL. unfold sign_challenge, bind, getattr, call.
  rewrite modulo_ok by assumption. reflexivity.
Qed.

Lemma run_verify_challenge (self : EdDSASigScheme) (dom2 signature PHM : bytes) :
  _order self <> 0 ->
  verify_challenge dom2 signature PHM self =
    (Return (spec_k (_order self) dom2 (slice_to 32 signature) (_A self) PHM), self).
Proof.
  intros HL. unfold verify_challenge, bind, getattr, call.
  rewrite modulo_ok by assumption. reflexivity.
Qed.

Lemma message_PHM (o : PyObject) (ph : bool) (PHM : bytes) :
  message o ph PHM ->
  isinstance_SHA512Hash o = ph /\ (ph || is_bytes o = true) /\
  PHM_of ph o = Return PHM.
Proof. intros []; repeat split. Qed.

Lemma run_sign (self : EdDSASigScheme) (o : PyObject) (ph : bool)
    (PHM : bytes) (d : Z) (prefix : bytes) :
  _d (_key self) = Some d ->
  _prefix (_key self) = Some prefix ->
  message o ph PHM ->
  len (_context self) <= 255 ->
  0 < _order self <= 2 ^ 256 ->
  result (sign o) self =
    Return (spec_signature (_order self) (G (_curve (_key self))) d prefix
              (_A self) (_context self) ph PHM).
Proof.
  intros Hd Hp Hm Hlen HL.
  destruct (message_PHM _ _ _ Hm) as (Hph & Hty & HPHM).
  assert (HL0 : _order self <> 0) by lia.
  unfold result, sign, bind at 1, getattr at 1.
  unfold has_private. rewrite Hd. cbn [negb].
  rewrite Hph, Hty. cbn [negb].
  unfold bind at 1. rewrite run_sign_dom2 by assumption.
  unfold bind at 1, call at 1. rewrite HPHM.
  unfold bind at 1, getattr at 1.
  unfold bind at 1, call at 1, key_prefix. rewrite Hp.
  unfold bind at 1, getattr at 1.
  unfold bind at 1, call at 1. rewrite modulo_ok by assumption.
  unfold bind at 1, getattr at 1.
  unfold bind at 1. rewrite run_sign_challenge by assumption.
  unfold bind at 1, getattr at 1.
  unfold bind at 1, call at 1, key_d. rewrite Hd.
  unfold bind at 1, getattr at 1.
  unfold bind at 1, call at 1. rewrite modulo_ok by assumption.
  unfold bind at 1, call at 1.
  rewrite to_bytes_ok.
  - reflexivity.
  - match goal with
    | |- 0 <= ?a mod ?m < _ => pose proof (Z.mod_pos_bound a m)
    end.
    change (256 ^ Z.of_nat 32) with (2 ^ 256). lia.
Qed.

Lemma run_verify (self : EdDSASigScheme) (o : PyObject) (ph : bool)
    (PHM signature : bytes) (K : EccKey EccPoint) :
  len signature = 64 ->
  message o ph PHM ->
  len (_context self) <= 255 ->
  _order self <> 0 ->
  import_public_key (slice_to 32 signature) = Return K ->
  Integer.from_bytes (slice_from 32 signature) <= _order self ->
  result (verify o signature) self =
    if spec_equation (G (_curve (_key self))) (pointQ (_key self)) (pointQ K)
         (Integer.from_bytes (slice_from 32 signature))
         (spec_k (_order self) (spec_dom2 (_context self) ph)
            (slice_to 32 signature) (_A self) PHM)
    then Return tt else Raise not_authentic.
Proof.
  intros Hsig Hm Hlen HL HK Hs.
  destruct (message_PHM _ _ _ Hm) as (Hph & Hty & HPHM).
  unfold result, verify. rewrite Hsig. cbn [Z.eqb Pos.eqb negb].
  rewrite Hph, Hty. cbn [negb].
  pose proof (sign_verify_dom2 ph self) as Hsv.
  unfold bind at 1. rewrite <- Hsv, run_sign_dom2 by assumption.
  unfold bind at 1, call at 1. rewrite HPHM.
  unfold bind at 1, call at 1. rewrite HK. cbn [except_ValueError].
  unfold bind at 1, getattr at 1.
  destruct (Z.ltb_spec (_order self)
              (Integer.from_bytes (slice_from 32 signature))); [lia|].
  unfold bind at 1. rewrite run_verify_challenge by assumption.
  unfold bind at 1, getattr at 1.
  unfold bind at 1, getattr at 1.
  unfold spec_equation.
  rewrite (Z.mul_comm 8 (Integer.from_bytes _)), (Z.mul_comm 8 (spec_k _ _ _ _ _)).
  destruct (point_eq _ _); reflexivity.
Qed.

Lemma verify_rejects_s_above_order (self : EdDSASigScheme) (o : PyObject)
    (ph : bool) (PHM signature : bytes) (K : EccKey EccPoint) :
  len signature = 64 ->
  message o ph PHM ->
  len (_context self) <= 255 ->
  import_public_key (slice_to 32 signature) = Return K ->
  _order self < Integer.from_bytes (slice_from 32 signature) ->
  result (verify o signature) self = Raise not_authentic_S.
Proof.
  intros Hsig Hm Hlen HK Hs.
  destruct (message_PHM _ _ _ Hm) as (Hph & Hty & HPHM).
  unfold result, verify. rewrite Hsig. cbn [Z.eqb Pos.eqb negb].
  rewrite Hph, Hty. cbn [negb].
  pose proof (sign_verify_dom2 ph self) as Hsv.
  unfold bind at 1. rewrite <- Hsv, run_sign_dom2 by assumption.
  unfold bind at 1, call at 1. rewrite HPHM.
  unfold bind at 1, call at 1. rewrite HK. cbn [except_ValueError].
  unfold bind at 1, getattr at 1.
  destruct (Z.ltb_spec (_order self)
              (Integer.from_bytes (slice_from 32 signature))); [|lia].
  reflexivity.
Qed.

Lemma verify_rejects_undecodable_R (self : EdDSASigScheme) (o : PyObject)
    (ph : bool) (PHM signature : bytes) (msg : string) :
  len signature = 64 ->
  message o ph PHM ->
  len (_context self) <= 255 ->
  import_public_key (slice_to 32 signature) = Raise (ValueError msg) ->
  result (verify o signature) self = Raise not_authentic_R.
Proof.
  intros Hsig Hm Hlen HK.
  destruct (message_PHM _ _ _ Hm) as (Hph & Hty & HPHM).
  unfold result, verify. rewrite Hsig. cbn [Z.eqb Pos.eqb negb].
  rewrite Hph, Hty. cbn [negb].
  pose proof (sign_verify_dom2 ph self) as Hsv.
  unfold bind at 1. rewrite <- Hsv, run_sign_dom2 by assumption.
  unfold bind at 1, call at 1. rewrite HPHM.
  unfold bind at 1, call at 1. rewrite HK. reflexivity.
Qed.

Lemma verify_outcomes (self : EdDSASigScheme) (o : PyObject) (ph : bool)
    (PHM signature : bytes) :
  import_raises_ValueError ->
  len signature = 64 ->
  message o ph PHM ->
  len (_context self) <= 255 ->
  _order self <> 0 ->
  result (verify o signature) self = Return tt \/
  result (verify o signature) self = Raise not_authentic_R \/
  result (verify o signature) self = Raise not_authentic_S \/
  result (verify o signature) self = Raise not_authentic.
Proof.
  intros Himp Hsig Hm Hlen HL.
  destruct (import_public_key (slice_to 32 signature)) as [K|e] eqn:HK.
  - destruct (Z.ltb_spec (_order self)
                (Integer.from_bytes (slice_from 32 signature))) as [Hs|Hs].
    + right. right. left.
      now apply (verify_rejects_s_above_order self o ph PHM signature K).
    + rewrite (run_verify self o ph PHM signature K) by assumption.
      destruct (spec_equation _ _ _ _ _); [left | do 3 right]; reflexivity.
  - destruct (Himp _ _ HK) as [msg ->].
    right. left.
    now apply (verify_rejects_undecodable_R self o ph PHM signature msg).
Qed.

(** [C9] In [verify] the length check comes before the type check: a
    signature that is not 64 bytes long raises the length failure
    whatever the message argument is, and with a 64-byte signature a
    message that is neither [bytes] nor a SHA-512 hash object raises a
    [TypeError], which is not the [ValueError] that every other failure
    of the verification raises. *)
Theorem verify_length_check_precedes_type_check :
  forall (self : EdDSASigScheme) (msg_or_hash : PyObject) (signature : bytes),
    (len signature <> 64 ->
       result (verify msg_or_hash signature) self = Raise bad_signature_length) /\
    (len signature = 64 ->
       isinstance_SHA512Hash msg_or_hash = false ->
       is_bytes msg_or_hash = false ->
       result (verify msg_or_hash signature) self = Raise bad_message_type /\
       forall msg, bad_message_type <> ValueError msg) /\
    (len signature = 64 ->
       forall (ph : bool) (PHM : bytes),
         message msg_or_hash ph PHM ->
         import_raises_ValueError ->
         len (_context self) <= 255 ->
         _order self <> 0 ->
         result (verify msg_or_hash signature) self = Return tt \/
         result (verify msg_or_hash signature) self = Raise not_authentic_R \/
         result (verify msg_or_hash signature) self = Raise not_authentic_S \/
         result (verify msg_or_hash signature) self = Raise not_authentic).
Proof.
  intros self msg_or_hash signature. split; [|split].
  - intros Hlen. unfold result, verify.
    destruct (Z.eqb_spec (len signature) 64); [contradiction|reflexivity].
  - intros Hlen Hh Hb. split; [|discriminate].
    unfold result, verify. rewrite Hlen, Hh, Hb. reflexivity.
  - intros Hlen ph PHM Hm Himp Hctx HL.
    now apply (verify_outcomes self msg_or_hash ph PHM signature).
Qed.

(** [C3] With a private key, [sign] returns the 64 bytes
    [encode(R)] followed by the 32-byte little-endian [s], where
    [r = LE(hash(dom2 || prefix || PHM)) mod L], [R = r * G],
    [k = LE(hash(dom2 || encode(R) || A_bytes || PHM)) mod L] and
    [s = (r + k * d) mod L], [PHM] being the digest in prehashed mode
    and the message otherwise. *)
Theorem sign_returns_spec_signature :
  forall (self : EdDSASigScheme) (msg_or_hash : PyObject) (ph : bool)
         (PHM : bytes) (d : Z) (prefix : bytes),
    encode_32 ->
    _d (_key self) = Some d ->
    _prefix (_key self) = Some prefix ->
    message msg_or_hash ph PHM ->
    len (_context self) <= 255 ->
    0 < _order self <= 2 ^ 256 ->
    let L := _order self in
    let dom2 := spec_dom2 (_context self) ph in
    let r := Integer.from_bytes (hash (dom2 ++ prefix ++ PHM)) mod L in
    let R := point_mul r (G (_curve (_key self))) in
    let k :=
      Integer.from_bytes (hash (dom2 ++ encode_point R ++ _A self ++ PHM)) mod L in
    let s := (r + k * d) mod L in
    result (sign msg_or_hash) self =
      Return (encode_point R ++ Integer.le_digits 32 s) /\
    List.length (encode_point R ++ Integer.le_digits 32 s) = 64%nat /\
    List.length (Integer.le_digits 32 s) = 32%nat /\
    Integer.from_bytes (Integer.le_digits 32 s) = s.
Proof.
  intros self o ph PHM d prefix Henc Hd Hp Hm Hlen HL L dom2 r R k s.
  split; [|split; [|split]].
  - rewrite (run_sign self o ph PHM d prefix) by assumption. reflexivity.
  - rewrite length_app, Henc, le_digits_length. reflexivity.
  - apply le_digits_length.
  - apply from_bytes_le_digits.
    pose proof (Z.mod_pos_bound (r + k * d) L ltac:(subst L; lia)) as Hs.
    change (256 ^ Z.of_nat 32) with (2 ^ 256). subst s L. lia.
Qed.

(** [C4] For a 64-byte signature whose first half decodes to a point
    [R] and whose scalar [s] passes the range check, [verify] returns
    if and only if [8 * s * G] equals [8 * R + 8 * k * A], and raises
    the invalid-signature error otherwise. *)
Theorem verify_iff_cofactored_equation :
  forall (self : EdDSASigScheme) (msg_or_hash : PyObject) (ph : bool)
         (PHM signature : bytes) (K : EccKey EccPoint),
    len signature = 64 ->
    message msg_or_hash ph PHM ->
    len (_context self) <= 255 ->
    _order self <> 0 ->
    import_public_key (slice_to 32 signature) = Return K ->
    Integer.from_bytes (slice_from 32 signature) <= _order self ->
    let R := pointQ K in
    let s := Integer.from_bytes (slice_from 32 signature) in
    let Gen := G (_curve (_key self)) in
    let A := pointQ (_key self) in
    exists k,
      result (verify_challenge (spec_dom2 (_context self) ph) signature PHM) self
        = Return k /\
      (result (verify msg_or_hash signature) self = Return tt <->
       point_eq (point_mul (8 * s) Gen)
                (point_add (point_mul 8 R) (point_mul (8 * k) A)) = true) /\
      (point_eq (point_mul (8 * s) Gen)
                (point_add (point_mul 8 R) (point_mul (8 * k) A)) = false ->
       result (verify msg_or_hash signature) self = Raise not_authentic).
Proof.
  intros self o ph PHM signature K Hsig Hm Hlen HL HK Hs R s Gen A.
  eexists. split.
  - unfold result. rewrite run_verify_challenge by assumption. reflexivity.
  - rewrite (run_verify self o ph PHM signature K) by assumption.
    unfold spec_equation. fold R s Gen A.
    destruct (point_eq _ _); split.
    + split; reflexivity.
    + intros H; discriminate H.
    + split; intros H; discriminate H.
    + reflexivity.
Qed.

(** [C7] In [verify], for a signature accepted past the decoding of
    [R], the challenge [k] is the one of signing's step 7, computed on
    the first 32 bytes of the signature as they were received and on
    the object's own [_A], and it is the [k] of the final equation.
    These bytes are not encoded again: the challenge is the one of the
    encoding of the decoded point when that encoding is the 32 bytes
    received. *)
Theorem verify_challenge_uses_signature_bytes :
  forall (self : EdDSASigScheme) (msg_or_hash : PyObject) (ph : bool)
         (PHM signature : bytes) (K : EccKey EccPoint),
    len signature = 64 ->
    message msg_or_hash ph PHM ->
    len (_context self) <= 255 ->
    _order self <> 0 ->
    import_public_key (slice_to 32 signature) = Return K ->
    Integer.from_bytes (slice_from 32 signature) <= _order self ->
    let dom2 := spec_dom2 (_context self) ph in
    let R := pointQ K in
    let s := Integer.from_bytes (slice_from 32 signature) in
    let k :=
      Integer.from_bytes (hash (dom2 ++ slice_to 32 signature ++ _A self ++ PHM))
        mod _order self in
    verify_challenge dom2 signature PHM self =
      sign_challenge dom2 (slice_to 32 signature) PHM self /\
    result (verify_challenge dom2 signature PHM) self = Return k /\
    result (verify msg_or_hash signature) self =
      (if point_eq (point_mul (s * 8) (G (_curve (_key self))))
            (point_add (point_mul 8 R) (point_mul (k * 8) (pointQ (_key self))))
       then Return tt else Raise not_authentic) /\
    (encode_point R = slice_to 32 signature ->
     verify_challenge dom2 signature PHM self =
       sign_challenge dom2 (encode_point R) PHM self).
Proof.
  intros self o ph PHM signature K Hsig Hm Hlen HL HK Hs dom2 R s k.
  split; [|split; [|split]].
  - rewrite run_verify_challenge, run_sign_challenge by assumption.
    reflexivity.
  - unfold result. rewrite run_verify_challenge by assumption. reflexivity.
  - rewrite (run_verify self o ph PHM signature K) by assumption.
    unfold spec_equation. fold dom2 R s.
    change (spec_k (_order self) dom2 (slice_to 32 signature) (_A self) PHM)
      with k.
    rewrite (Z.mul_comm 8 s), (Z.mul_comm 8 k). reflexivity.
  - intros Henc. rewrite Henc.
    rewrite run_verify_challenge, run_sign_challenge by assumption.
    reflexivity.
Qed.

(* ================================================================= *)
(** ** Construction, round trip and determinism *)

Lemma new_inv (key : PyObject) (mode : string) (context : option bytes)
    (self : EdDSASigScheme) :
  new key mode context = Return self ->
  exists k c,
    key = PyEccKey k /\ self = __init__ k c /\ len c <= 255 /\
    name (_curve k) = "ed25519"%string /\ mode = "rfc8032"%string /\
    c = match context with Some b => b | None => [] end.
Proof.
  unfold new. destruct key as [| | | | |k]; try discriminate.
  destruct (String.eqb_spec (name (_curve k)) "ed25519"); [|discriminate].
  destruct (String.eqb_spec mode "rfc8032"); [|discriminate].
  cbn [negb]. destruct context as [c|].
  - destruct (Z.ltb_spec 255 (len c)); [discriminate|].
    intros [= <-]. exists k, c. repeat split; auto.
  - intros [= <-]. exists k, []. repeat split; auto. cbn. lia.
Qed.

Lemma cofactored_equation_of_signature (c : Curve EccPoint) (d r k : Z) :
  mul_add_distr -> mul_mul_assoc -> curve_contract c ->
  0 <= d -> 0 <= r -> 0 <= k ->
  point_mul (8 * ((r + k * d) mod order c)) (G c) =
    point_add (point_mul 8 (point_mul r (G c)))
              (point_mul (8 * k) (point_mul d (G c))).
Proof.
  intros Hadd Hmul [Hpos Hfit HG] Hd Hr Hk.
  pose proof (Z.mod_pos_bound (r + k * d) (order c) Hpos) as Hs.
  rewrite <- HG by lia.
  rewrite Z.mul_mod_idemp_r by lia.
  rewrite HG by nia.
  rewrite Z.mul_add_distr_l, Hadd by nia.
  rewrite Z.mul_assoc, !Hmul by lia.
  reflexivity.
Qed.

(** [C2] For a key with private material, a context of at most 255
    bytes and a message or a SHA-512 hash object, [sign] returns a
    64-byte signature and [verify], on a signature object built from
    the same key, context and mode, returns on the same message and
    that signature. *)
Theorem sign_then_verify :
  forall (key : EccKey EccPoint) (d : Z) (prefix : bytes) (mode : string)
         (context : option bytes) (signer verifier : EdDSASigScheme)
         (msg_or_hash : PyObject) (ph : bool) (PHM : bytes),
    encode_32 -> decode_encode -> point_eq_refl ->
    mul_add_distr -> mul_mul_assoc ->
    curve_contract (_curve key) ->
    private_key key d prefix ->
    message msg_or_hash ph PHM ->
    new (PyEccKey key) mode context = Return signer ->
    new (PyEccKey key) mode context = Return verifier ->
    exists signature,
      result (sign msg_or_hash) signer = Return signature /\
      List.length signature = 64%nat /\
      result (verify msg_or_hash signature) verifier = Return tt.
Proof.
  intros key d prefix mode context signer verifier o ph PHM
    Henc Hdec Hrefl Hadd Hmul Hcurve [Hd Hp Hd0 HA] Hm Hs Hv.
  rewrite Hs in Hv. injection Hv as <-.
  apply new_inv in Hs as (k' & c & [= <-] & -> & Hlen & _).
  pose proof Hcurve as [Hpos Hfit HG].
  set (self := __init__ key c).
  assert (HL : 0 < _order self <= 2 ^ 256) by (cbn; lia).
  pose proof (run_sign self o ph PHM d prefix Hd Hp Hm Hlen HL) as Hsign.
  unfold spec_signature, spec_r, spec_k, spec_scalar in Hsign.
  cbv zeta in Hsign.
  set (L := _order self) in *.
  set (dom2 := spec_dom2 (_context self) ph) in *.
  set (r := Integer.from_bytes (hash (dom2 ++ prefix ++ PHM)) mod L) in *.
  set (R := point_mul r (G (_curve (_key self)))) in *.
  set (k := Integer.from_bytes (hash (dom2 ++ encode_point R ++ _A self ++ PHM))
              mod L) in *.
  set (s := (r + k * d) mod L) in *.
  assert (Hr : 0 <= r < L) by (apply Z.mod_pos_bound; lia).
  assert (Hk : 0 <= k < L) by (apply Z.mod_pos_bound; lia).
  assert (Hsr : 0 <= s < L) by (apply Z.mod_pos_bound; lia).
  assert (Hsval : Integer.from_bytes (Integer.le_digits 32 s) = s).
  { apply from_bytes_le_digits. change (256 ^ Z.of_nat 32) with (2 ^ 256). lia. }
  assert (Hlen64 : List.length (encode_point R ++ Integer.le_digits 32 s) = 64%nat)
    by (rewrite length_app, Henc, le_digits_length; reflexivity).
  exists (encode_point R ++ Integer.le_digits 32 s).
  split; [exact Hsign|]. split; [exact Hlen64|].
  destruct (Hdec R) as (K & HK & HKR).
  assert (H1 : slice_to 32 (encode_point R ++ Integer.le_digits 32 s)
               = encode_point R) by (apply slice_to_app, Henc).
  assert (H2 : slice_from 32 (encode_point R ++ Integer.le_digits 32 s)
               = Integer.le_digits 32 s) by (apply slice_from_app, Henc).
  rewrite (run_verify self o ph PHM _ K).
  - rewrite H1, H2, Hsval, HKR. unfold spec_equation.
    fold dom2 L. unfold spec_k, spec_scalar.
    fold (hash (dom2 ++ encode_point R ++ _A self ++ PHM)). fold k.
    subst s R L. cbn [__init__ _key _order self].
    rewrite HA.
    rewrite (cofactored_equation_of_signature (_curve key) d r k)
      by (assumption || lia).
    rewrite Hrefl. reflexivity.
  - unfold len. rewrite Hlen64. reflexivity.
  - assumption.
  - assumption.
  - lia.
  - rewrite H1. exact HK.
  - rewrite H2, Hsval. lia.
Qed.

(** [C6] Signing is deterministic.  For a key with private material,
    a context and the bytes a message or a hash object stands for,
    [sign] returns one 64-byte signature: from two signature objects
    built from this key and this context, from a second call on the
    same object, and whatever was signed or verified in between.  No
    part of it is drawn: its first half is the encoding of [r * G] for
    the [r] that is the hash of [dom2], the key's prefix and the
    message, reduced modulo the order. *)
Theorem sign_deterministic :
  forall (key : EccKey EccPoint) (mode : string) (context : option bytes)
         (first second : EdDSASigScheme) (o1 o2 : PyObject) (ph : bool)
         (PHM : bytes) (d : Z) (prefix : bytes),
    encode_32 ->
    new (PyEccKey key) mode context = Return first ->
    new (PyEccKey key) mode context = Return second ->
    _d key = Some d ->
    _prefix key = Some prefix ->
    0 < order (_curve key) <= 2 ^ 256 ->
    message o1 ph PHM ->
    message o2 ph PHM ->
    let dom2 := spec_dom2 (context_or_empty context) ph in
    let r :=
      Integer.from_bytes (hash (dom2 ++ prefix ++ PHM)) mod order (_curve key) in
    exists signature,
      List.length signature = 64%nat /\
      slice_to 32 signature = encode_point (point_mul r (G (_curve key))) /\
      result (sign o1) first = Return signature /\
      result (sign o2) second = Return signature /\
      result (sign o1) (final (sign o1) first) = Return signature /\
      (forall other other_signature,
         result (sign o2)
           (final (verify other other_signature) (final (sign other) second))
         = Return signature).
Proof.
  intros key mode context first second o1 o2 ph PHM d prefix
    Henc H1 H2 Hd Hp HL Hm1 Hm2 dom2 r.
  rewrite H1 in H2. injection H2 as <-.
  apply new_inv in H1 as (k' & c & [= <-] & -> & Hlen & _ & _ & Hc).
  assert (Hctx : c = context_or_empty context) by exact Hc.
  set (self := __init__ key c).
  pose proof (run_sign self o1 ph PHM d prefix Hd Hp Hm1 Hlen HL) as Hs1.
  pose proof (run_sign self o2 ph PHM d prefix Hd Hp Hm2 Hlen HL) as Hs2.
  set (signature := spec_signature (_order self) (G (_curve (_key self))) d
                      prefix (_A self) (_context self) ph PHM) in *.
  assert (Hshape : signature =
            encode_point (point_mul r (G (_curve key)))
            ++ Integer.le_digits 32
                 ((r + spec_k (order (_curve key)) dom2
                         (encode_point (point_mul r (G (_curve key))))
                         (_A self) PHM * d) mod order (_curve key))).
  { subst signature dom2 r. rewrite <- Hctx. reflexivity. }
  exists signature. split; [|split; [|split; [|split; [|split]]]].
  - rewrite Hshape, length_app, Henc, le_digits_length. reflexivity.
  - rewrite Hshape. apply slice_to_app, Henc.
  - exact Hs1.
  - exact Hs2.
  - rewrite sign_read_only. exact Hs1.
  - intros other other_signature.
    rewrite verify_read_only, sign_read_only. exact Hs2.
Qed.

End Properties.

(* ================================================================= *)
(** ** Construction and key import *)

Section Construction.

Context {B : Backend}.

(** [X1] [new] returns exactly when the key is an [EccKey] on the
    curve ['ed25519'], the mode is ['rfc8032'] and the context, taken
    as empty when it is [None], has at most 255 bytes; the object it
    returns holds that key and that context, the encoding of the key's
    public point and the order of the key's curve. *)
Theorem new_returns_iff :
  forall (key : PyObject) (mode : string) (context : option bytes)
         (self : EdDSASigScheme),
    new key mode context = Return self <->
    exists k,
      key = PyEccKey k /\ name (_curve k) = "ed25519"%string /\
      mode = "rfc8032"%string /\
      len (context_or_empty context) <= 255 /\
      _key self = k /\ _context self = context_or_empty context /\
      _A self = encode_point (pointQ k) /\ _order self = order (_curve k).
Proof.
  intros key mode context self. split.
  - intros H. apply new_inv in H as (k & c & -> & -> & Hlen & Hname & Hmode & ->).
    exists k. repeat split; assumption.
  - intros (k & -> & Hname & -> & Hlen & Hk & Hc & HA & HL).
    unfold new. rewrite Hname. cbn [String.eqb Ascii.eqb Bool.eqb negb].
    destruct self as [key' ctx' A' L']. cbn in Hk, Hc, HA, HL. subst.
    destruct context as [c|]; cbn [context_or_empty] in *.
    + destruct (Z.ltb_spec 255 (len c)); [lia|reflexivity].
    + reflexivity.
Qed.

(** [X2] [new] tests the key first, then the mode, then the length of
    the context, and each failure is a [ValueError]: a key that is not
    an Ed25519 [EccKey] is reported whatever the mode and the context
    are, and a wrong mode is reported whatever the context is. *)
Theorem new_failure_order :
  forall (key : PyObject) (mode : string) (context : option bytes),
    (~ ed25519_key key -> new key mode context = Raise new_bad_key) /\
    (ed25519_key key -> mode <> "rfc8032"%string ->
       new key mode context = Raise new_bad_mode) /\
    (ed25519_key key -> mode = "rfc8032"%string ->
       255 < len (context_or_empty context) ->
       new key mode context = Raise new_long_context) /\
    (forall e, new key mode context = Raise e -> exists msg, e = ValueError msg).
Proof.
  intros key mode context. unfold ed25519_key, new.
  split; [|split; [|split]].
  - intros Hkey. destruct key as [| | | | |k]; try reflexivity.
    destruct (String.eqb_spec (name (_curve k)) "ed25519") as [Hn|]; [|reflexivity].
    elim Hkey. exists k. split; [reflexivity|assumption].
  - intros (k & -> & Hn) Hmode. rewrite Hn.
    cbn [String.eqb Ascii.eqb Bool.eqb negb].
    destruct (String.eqb_spec mode "rfc8032"); [contradiction|reflexivity].
  - intros (k & -> & Hn) -> Hlen. rewrite Hn.
    cbn [String.eqb Ascii.eqb Bool.eqb negb].
    destruct context as [c|]; cbn [context_or_empty] in Hlen.
    + destruct (Z.ltb_spec 255 (len c)); [reflexivity|lia].
    + cbn in Hlen. lia.
  - intros e. destruct key as [| | | | |k];
      try (intros [= <-]; eexists; reflexivity).
    destruct (negb _); [intros [= <-]; eexists; reflexivity|].
    destruct (negb _); [intros [= <-]; eexists; reflexivity|].
    destruct context as [c|]; [|discriminate].
    destruct (255 <? len c); [intros [= <-]; eexists; reflexivity|discriminate].
Qed.

(** [X3] [import_private_key] rejects every input that is not 32 bytes
    long, the empty one included, with a [ValueError] and without
    building a key; a 32-byte input is handed to [construct] as the
    seed of a key on ['ed25519'], whose answer is returned as it is. *)
Theorem import_private_key_length :
  forall (encoded : bytes),
    (len encoded <> 32 ->
       import_private_key encoded = Raise bad_private_key_length) /\
    (len encoded = 32 ->
       import_private_key encoded = construct_seed encoded "ed25519") /\
    (forall key, import_private_key encoded = Return key ->
       List.length encoded = 32%nat /\
       construct_seed encoded "ed25519" = Return key).
Proof.
  intros encoded. unfold import_private_key. split; [|split].
  - intros H. destruct (Z.eqb_spec (len encoded) 32); [contradiction|reflexivity].
  - intros ->. reflexivity.
  - intros key. destruct (Z.eqb_spec (len encoded) 32) as [H|]; [|discriminate].
    cbn [negb]. intros Hc. split; [unfold len in H; lia|exact Hc].
Qed.

End Construction.

(* ================================================================= *)
(** ** Every outcome of [sign] and [verify] *)

Section Outcomes.

Context {B : Backend}.

Lemma bchr_flag (ph : bool) : bchr (int ph) = Return [byte_of_Z (int ph)].
Proof. destruct ph; reflexivity. Qed.

Lemma run_sign_dom2_long (self : EdDSASigScheme) (ph : bool) :
  255 < len (_context self) ->
  sign_dom2 ph self = (Raise bchr_out_of_range, self).
Proof.
  intros Hlen. unfold sign_dom2, bind, getattr, call.
  rewrite truthy_len.
  destruct (Z.eqb_spec (len (_context self)) 0); [lia|]. cbn [negb orb].
  rewrite bchr_flag. unfold bchr.
  destruct (Z.ltb_spec (len (_context self)) 256); [lia|].
  rewrite andb_false_r. reflexivity.
Qed.

(** What [sign] does with a private key and an argument of a valid
    type, failure by failure. *)
Lemma sign_outcome (self : EdDSASigScheme) (o : PyObject) (ph : bool)
    (PHM : bytes) (d : Z) :
  _d (_key self) = Some d ->
  message o ph PHM ->
  result (sign o) self =
    if 255 <? len (_context self) then Raise bchr_out_of_range
    else
      obind (key_prefix (_key self)) (fun prefix =>
      if _order self =? 0 then Raise (ZeroDivisionError "Division by zero")
      else
        let L := _order self in
        let dom2 := spec_dom2 (_context self) ph in
        let r := spec_r L dom2 prefix PHM in
        let R_pk := encode_point (point_mul r (G (_curve (_key self)))) in
        let k := spec_k L dom2 R_pk (_A self) PHM in
        obind (Integer.to_bytes 32 ((r + k * d) mod L)) (fun s_bytes =>
        Return (R_pk ++ s_bytes))).
Proof.
  intros Hd Hm.
  destruct (message_PHM _ _ _ Hm) as (Hph & Hty & HPHM).
  unfold result, sign, bind at 1, getattr at 1.
  unfold has_private. rewrite Hd. cbn [negb].
  rewrite Hph, Hty. cbn [negb].
  unfold bind at 1.
  destruct (Z.ltb_spec 255 (len (_context self))) as [Hlen|Hlen].
  { rewrite run_sign_dom2_long by assumption. reflexivity. }
  rewrite run_sign_dom2 by assumption.
  unfold bind at 1, call at 1. rewrite HPHM.
  unfold bind at 1, getattr at 1.
  unfold bind at 1, call at 1.
  destruct (key_prefix (_key self)) as [prefix|e]; [|reflexivity].
  cbn [obind].
  unfold bind at 1, getattr at 1.
  unfold bind at 1, call at 1.
  destruct (Z.eqb_spec (_order self) 0) as [HL|HL].
  { unfold Integer.modulo. rewrite HL. reflexivity. }
  rewrite modulo_ok by assumption.
  unfold bind at 1, getattr at 1.
  unfold bind at 1. rewrite run_sign_challenge by assumption.
  unfold bind at 1, getattr at 1.
  unfold bind at 1, call at 1, key_d. rewrite Hd.
  unfold bind at 1, getattr at 1.
  unfold bind at 1, call at 1. rewrite modulo_ok by assumption.
  unfold bind at 1, call at 1. cbv zeta.
  destruct (Integer.to_bytes 32 _); reflexivity.
Qed.

(** What [verify] does with a 64-byte signature and an argument of a
    valid type, failure by failure. *)
Lemma verify_outcome (self : EdDSASigScheme) (o : PyObject) (ph : bool)
    (PHM signature : bytes) :
  len signature = 64 ->
  message o ph PHM ->
  result (verify o signature) self =
    if 255 <? len (_context self) then Raise bchr_out_of_range
    else
      obind (except_ValueError (import_public_key (slice_to 32 signature))
               not_authentic_R) (fun K =>
      let s := Integer.from_bytes (slice_from 32 signature) in
      if _order self <? s then Raise not_authentic_S
      else if _order self =? 0 then Raise (ZeroDivisionError "Division by zero")
      else if spec_equation (G (_curve (_key self))) (pointQ (_key self))
                (pointQ K) s
                (spec_k (_order self) (spec_dom2 (_context self) ph)
                   (slice_to 32 signature) (_A self) PHM)
      then Return tt else Raise not_authentic).
Proof.
  intros Hsig Hm.
  destruct (message_PHM _ _ _ Hm) as (Hph & Hty & HPHM).
  unfold result, verify. rewrite Hsig. cbn [Z.eqb Pos.eqb negb].
  rewrite Hph, Hty. cbn [negb].
  pose proof (sign_verify_dom2 ph self) as Hsv.
  unfold bind at 1. rewrite <- Hsv.
  destruct (Z.ltb_spec 255 (len (_context self))) as [Hlen|Hlen].
  { rewrite run_sign_dom2_long by assumption. reflexivity. }
  rewrite run_sign_dom2 by assumption.
  unfold bind at 1, call at 1. rewrite HPHM.
  unfold bind at 1, call at 1.
  destruct (except_ValueError _ _) as [K|e]; [|reflexivity].
  cbn [obind]. cbv zeta.
  unfold bind at 1, getattr at 1.
  destruct (_order self <? Integer.from_bytes (slice_from 32 signature));
    [reflexivity|].
  unfold bind at 1.
  destruct (Z.eqb_spec (_order self) 0) as [HL|HL].
  { unfold verify_challenge, bind, getattr, call, Integer.modulo.
    rewrite HL. reflexivity. }
  rewrite run_verify_challenge by assumption.
  unfold bind at 1, getattr at 1.
  unfold bind at 1, getattr at 1.
  unfold spec_equation.
  rewrite (Z.mul_comm 8 (Integer.from_bytes _)), (Z.mul_comm 8 (spec_k _ _ _ _ _)).
  destruct (point_eq _ _); reflexivity.
Qed.

Lemma to_bytes_inv (n : nat) (v : Z) (b : bytes) :
  Integer.to_bytes n v = Return b ->
  0 <= v < 256 ^ Z.of_nat n /\ b = Integer.le_digits n v.
Proof.
  unfold Integer.to_bytes.
  destruct (Z.ltb_spec v 0); [discriminate|].
  destruct (Z.leb_spec (256 ^ Z.of_nat n) v); [discriminate|].
  intros Hb. split; [lia|congruence].
Qed.

Lemma message_or_not (o : PyObject) :
  (exists ph PHM, message o ph PHM) \/
  (isinstance_SHA512Hash o = false /\ is_bytes o = false).
Proof.
  destruct o; try (right; split; reflexivity); left.
  - exists false, b. constructor.
  - exists true, (digest h). constructor.
Qed.

Lemma message_functional (o : PyObject) (ph1 ph2 : bool) (m1 m2 : bytes) :
  message o ph1 m1 -> message o ph2 m2 -> ph1 = ph2 /\ m1 = m2.
Proof. intros [] H; inversion H; subst; split; reflexivity. Qed.

Lemma sign_without_private (self : EdDSASigScheme) (o : PyObject) :
  _d (_key self) = None -> result (sign o) self = Raise private_key_needed.
Proof.
  intros Hd. unfold result, sign, bind, getattr, has_private.
  rewrite Hd. reflexivity.
Qed.

Lemma sign_bad_type (self : EdDSASigScheme) (o : PyObject) (d : Z) :
  _d (_key self) = Some d ->
  isinstance_SHA512Hash o = false -> is_bytes o = false ->
  result (sign o) self = Raise bad_message_type.
Proof.
  intros Hd Hh Hb. unfold result, sign, bind, getattr, has_private.
  rewrite Hd, Hh, Hb. reflexivity.
Qed.

Lemma verify_bad_length (self : EdDSASigScheme) (o : PyObject) (signature : bytes) :
  len signature <> 64 ->
  result (verify o signature) self = Raise bad_signature_length.
Proof.
  intros Hlen. unfold result, verify.
  destruct (Z.eqb_spec (len signature) 64); [contradiction|reflexivity].
Qed.

Lemma verify_bad_type (self : EdDSASigScheme) (o : PyObject) (signature : bytes) :
  len signature = 64 ->
  isinstance_SHA512Hash o = false -> is_bytes o = false ->
  result (verify o signature) self = Raise bad_message_type.
Proof.
  intros Hlen Hh Hb. unfold result, verify. rewrite Hlen, Hh, Hb. reflexivity.
Qed.

(** What a call to [verify] that returns has checked. *)
Lemma verify_returns_facts (self : EdDSASigScheme) (o : PyObject)
    (signature : bytes) :
  result (verify o signature) self = Return tt ->
  len signature = 64 /\ len (_context self) <= 255 /\ _order self <> 0 /\
  exists ph PHM K,
    message o ph PHM /\
    import_public_key (slice_to 32 signature) = Return K /\
    Integer.from_bytes (slice_from 32 signature) <= _order self /\
    spec_equation (G (_curve (_key self))) (pointQ (_key self)) (pointQ K)
      (Integer.from_bytes (slice_from 32 signature))
      (spec_k (_order self) (spec_dom2 (_context self) ph)
         (slice_to 32 signature) (_A self) PHM) = true.
Proof.
  intros H.
  destruct (Z.eq_dec (len signature) 64) as [Hlen|Hlen];
    [|rewrite verify_bad_length in H by assumption; discriminate H].
  destruct (message_or_not o) as [(ph & PHM & Hm)|[Hh Hb]];
    [|rewrite verify_bad_type in H by assumption; discriminate H].
  rewrite (verify_outcome self o ph PHM signature Hlen Hm) in H.
  destruct (Z.ltb_spec 255 (len (_context self))) as [|Hctx]; [discriminate H|].
  destruct (import_public_key (slice_to 32 signature)) as [K|[]] eqn:HK;
    try discriminate H.
  cbn [except_ValueError obind] in H. cbv zeta in H.
  destruct (Z.ltb_spec (_order self)
              (Integer.from_bytes (slice_from 32 signature))) as [|Hs];
    [discriminate H|].
  destruct (Z.eqb_spec (_order self) 0) as [|HL]; [discriminate H|].
  destruct (spec_equation _ _ _ _ _) eqn:Heq; [|discriminate H].
  split; [assumption|]. split; [assumption|]. split; [assumption|].
  exists ph, PHM, K. repeat split; assumption.
Qed.

(** [X4] A context longer than 255 bytes cannot be bound by [new]; on
    an object that holds one, [sign] with a private key and [verify]
    with a 64-byte signature, given an argument of a valid type, raise
    the [ValueError] of [bchr] on the length byte of the prefix. *)
Theorem long_context_raises :
  forall (self : EdDSASigScheme) (o : PyObject) (ph : bool)
         (PHM signature : bytes),
    255 < len (_context self) ->
    message o ph PHM ->
    (has_private (_key self) = true ->
       result (sign o) self = Raise bchr_out_of_range) /\
    (len signature = 64 ->
       result (verify o signature) self = Raise bchr_out_of_range) /\
    (forall key mode context, new key mode context <> Return self).
Proof.
  intros self o ph PHM signature Hlen Hm. split; [|split].
  - unfold has_private. destruct (_d (_key self)) as [d|] eqn:Hd; [|discriminate].
    intros _. rewrite (sign_outcome self o ph PHM d Hd Hm).
    destruct (Z.ltb_spec 255 (len (_context self))); [reflexivity|lia].
  - intros Hsig. rewrite (verify_outcome self o ph PHM signature Hsig Hm).
    destruct (Z.ltb_spec 255 (len (_context self))); [reflexivity|lia].
  - intros key mode context H.
    apply new_inv in H as (k & c & _ & -> & Hc & _). cbn in Hlen. lia.
Qed.

(** [X5] [can_sign] returns whether the key has a private half and
    leaves the object unchanged; it returns [False] exactly when [sign]
    raises the private-key error, on every argument, and [True] exactly
    when [sign] never raises it. *)
Theorem can_sign_tells_sign :
  forall (self : EdDSASigScheme),
    result can_sign self = Return (has_private (_key self)) /\
    final can_sign self = self /\
    (result can_sign self = Return false <->
       forall o, result (sign o) self = Raise private_key_needed) /\
    (result can_sign self = Return true <->
       forall o, result (sign o) self <> Raise private_key_needed).
Proof.
  intros self.
  assert (Hcan : result can_sign self = Return (has_private (_key self)))
    by reflexivity.
  split; [exact Hcan|]. split; [reflexivity|].
  rewrite Hcan. unfold has_private.
  destruct (_d (_key self)) as [d|] eqn:Hd.
  - assert (Hnever : forall o, result (sign o) self <> Raise private_key_needed).
    { intros o.
      destruct (message_or_not o) as [(ph & PHM & Hm)|[Hh Hb]].
      - rewrite (sign_outcome self o ph PHM d Hd Hm).
        destruct (255 <? len (_context self)); [discriminate|].
        unfold key_prefix. destruct (_prefix (_key self)); [|discriminate].
        cbn [obind]. destruct (_order self =? 0); [discriminate|].
        cbv zeta. unfold Integer.to_bytes.
        destruct (_ <? 0); [discriminate|].
        destruct (_ <=? _); discriminate.
      - rewrite (sign_bad_type self o d) by assumption. discriminate. }
    split; split.
    + discriminate.
    + intros H. elim (Hnever PyNone). apply H.
    + intros _. exact Hnever.
    + reflexivity.
  - assert (Halways : forall o, result (sign o) self = Raise private_key_needed)
      by (intros o; now apply sign_without_private).
    split; split.
    + intros _. exact Halways.
    + reflexivity.
    + discriminate.
    + intros H. elim (H PyNone). apply Halways.
Qed.

(** [X6] In [verify], once the length and the type are accepted, the
    first half of the signature is decoded before the scalar is looked
    at: a first half that does not decode raises the error on [R]
    whatever the second half is, and with a first half that decodes a
    scalar above the order raises the error on [S] whatever the message
    and the key are. *)
Theorem verify_decodes_then_checks_range :
  forall (self : EdDSASigScheme) (o : PyObject) (ph : bool)
         (PHM signature : bytes),
    len signature = 64 ->
    message o ph PHM ->
    len (_context self) <= 255 ->
    (forall msg,
       import_public_key (slice_to 32 signature) = Raise (ValueError msg) ->
       result (verify o signature) self = Raise not_authentic_R) /\
    (forall K,
       import_public_key (slice_to 32 signature) = Return K ->
       _order self < Integer.from_bytes (slice_from 32 signature) ->
       result (verify o signature) self = Raise not_authentic_S).
Proof.
  intros self o ph PHM signature Hsig Hm Hctx.
  rewrite (verify_outcome self o ph PHM signature Hsig Hm).
  destruct (Z.ltb_spec 255 (len (_context self))); [lia|].
  split.
  - intros msg ->. reflexivity.
  - intros K -> Hs. cbn [except_ValueError obind]. cbv zeta.
    destruct (Z.ltb_spec (_order self)
                (Integer.from_bytes (slice_from 32 signature))); [reflexivity|lia].
Qed.

Lemma public_only_curve (k : EccKey EccPoint) :
  _curve (public_only k) = _curve k.
Proof. reflexivity. Qed.

Lemma public_only_point (k : EccKey EccPoint) :
  pointQ (public_only k) = pointQ k.
Proof. reflexivity. Qed.

Lemma verify_same_public (ka kb : EccKey EccPoint) (context : bytes)
    (o : PyObject) (signature : bytes) :
  _curve ka = _curve kb ->
  pointQ ka = pointQ kb ->
  result (verify o signature) (__init__ ka context) =
  result (verify o signature) (__init__ kb context).
Proof.
  intros Hcab HQab.
  destruct (Z.eq_dec (len signature) 64) as [Hlen|Hlen];
    [|rewrite !verify_bad_length by assumption; reflexivity].
  destruct (message_or_not o) as [(ph & PHM & Hm)|[Hh Hb]];
    [|rewrite !verify_bad_type by assumption; reflexivity].
  rewrite !(verify_outcome _ o ph PHM signature Hlen Hm).
  unfold __init__, _export_ed25519. cbn [_key _context _A _order].
  rewrite Hcab, HQab. reflexivity.
Qed.

(** [X7] [verify] reads the curve and the public point of the key and
    nothing else of it: two objects built on keys with the same curve
    and the same public point, with or without a private half, give
    the same answer on every message and signature. *)
Theorem verify_reads_public_half_only :
  forall (k1 k2 : EccKey EccPoint) (context : bytes) (o : PyObject)
         (signature : bytes),
    _curve k1 = _curve k2 ->
    pointQ k1 = pointQ k2 ->
    result (verify o signature) (__init__ k1 context) =
    result (verify o signature) (__init__ k2 context) /\
    result (verify o signature) (__init__ (public_only k1) context) =
    result (verify o signature) (__init__ k1 context).
Proof.
  intros k1 k2 context o signature Hc HQ. split.
  - now apply verify_same_public.
  - apply verify_same_public; reflexivity.
Qed.

(** [X8] Whatever [sign] returns is a signature of 64 bytes whose
    first half is the encoding of a multiple [r * G] of the generator
    with [0 <= r < L] and whose second half is a scalar below [L]: the
    scalar that [sign] writes passes the range check of [verify]. *)
Theorem sign_output_shape :
  forall (self : EdDSASigScheme) (o : PyObject) (signature : bytes),
    encode_32 ->
    0 < _order self ->
    result (sign o) self = Return signature ->
    List.length signature = 64%nat /\
    0 <= Integer.from_bytes (slice_from 32 signature) < _order self /\
    exists r,
      0 <= r < _order self /\
      slice_to 32 signature = encode_point (point_mul r (G (_curve (_key self)))).
Proof.
  intros self o signature Henc HL H.
  destruct (_d (_key self)) as [d|] eqn:Hd;
    [|rewrite sign_without_private in H by assumption; discriminate H].
  destruct (message_or_not o) as [(ph & PHM & Hm)|[Hh Hb]];
    [|rewrite (sign_bad_type self o d) in H by assumption; discriminate H].
  rewrite (sign_outcome self o ph PHM d Hd Hm) in H.
  destruct (255 <? len (_context self)); [discriminate H|].
  destruct (key_prefix (_key self)) as [prefix|]; [|discriminate H].
  cbn [obind] in H.
  destruct (Z.eqb_spec (_order self) 0); [lia|].
  cbv zeta in H.
  set (r := spec_r (_order self) (spec_dom2 (_context self) ph) prefix PHM) in *.
  set (R_pk := encode_point (point_mul r (G (_curve (_key self))))) in *.
  set (k := spec_k (_order self) (spec_dom2 (_context self) ph) R_pk
              (_A self) PHM) in *.
  set (s := (r + k * d) mod _order self) in *.
  assert (Hs : 0 <= s < _order self) by (apply Z.mod_pos_bound; assumption).
  assert (Hr : 0 <= r < _order self) by (apply Z.mod_pos_bound; assumption).
  destruct (Integer.to_bytes 32 s) as [s_bytes|] eqn:Ht; [|discriminate H].
  apply to_bytes_inv in Ht as [Hfit ->].
  cbn [obind] in H.
  assert (Hsig : signature = R_pk ++ Integer.le_digits 32 s) by congruence.
  clear H. subst signature.
  assert (HR : List.length R_pk = 32%nat) by apply Henc.
  split; [rewrite length_app, HR, le_digits_length; reflexivity|].
  split.
  - rewrite slice_from_app by assumption.
    rewrite from_bytes_le_digits by lia. exact Hs.
  - exists r. split; [exact Hr|]. now apply slice_to_app.
Qed.

(** [X9] A call to [verify] that returns has checked everything: the
    signature has 64 bytes, the message is [bytes] or a SHA-512 hash
    object, the first half decodes to a point [R], the scalar [s] is
    not above the order, and [8 * s * G] equals [8 * R + 8 * k * A] for
    the challenge [k] hashed from the prefix, the first half, the
    cached public key and the message. *)
Theorem verify_returns_only_if :
  forall (self : EdDSASigScheme) (o : PyObject) (signature : bytes),
    result (verify o signature) self = Return tt ->
    List.length signature = 64%nat /\
    exists ph PHM K,
      message o ph PHM /\
      import_public_key (slice_to 32 signature) = Return K /\
      let s := Integer.from_bytes (slice_from 32 signature) in
      let k :=
        Integer.from_bytes
          (hash (spec_dom2 (_context self) ph ++ slice_to 32 signature
                   ++ _A self ++ PHM)) mod _order self in
      0 <= s <= _order self /\
      point_eq (point_mul (8 * s) (G (_curve (_key self))))
        (point_add (point_mul 8 (pointQ K))
           (point_mul (8 * k) (pointQ (_key self)))) = true.
Proof.
  intros self o signature H.
  apply verify_returns_facts in H
    as (Hlen & Hctx & HL & ph & PHM & K & Hm & HK & Hs & Heq).
  split; [unfold len in Hlen; lia|].
  exists ph, PHM, K. split; [exact Hm|]. split; [exact HK|].
  cbv zeta. split; [|exact Heq].
  pose proof (from_bytes_range (slice_from 32 signature)). lia.
Qed.

Lemma spec_dom2_injective (c1 c2 : bytes) (ph1 ph2 : bool) :
  spec_dom2 c1 ph1 = spec_dom2 c2 ph2 -> c1 = c2 /\ ph1 = ph2.
Proof.
  unfold spec_dom2.
  destruct ((len c1 =? 0) && negb ph1) eqn:E1;
    destruct ((len c2 =? 0) && negb ph2) eqn:E2; intros H.
  - apply andb_true_iff in E1 as [L1 P1], E2 as [L2 P2].
    destruct c1, c2; try discriminate L1; try discriminate L2.
    destruct ph1, ph2; try discriminate P1; try discriminate P2.
    split; reflexivity.
  - discriminate H.
  - discriminate H.
  - apply app_inv_head in H. injection H as Hf _ Hc.
    split; [exact Hc|].
    destruct ph1, ph2; try reflexivity; discriminate Hf.
Qed.

(** [X10] The domain-separation prefix tells the modes apart: if the
    prefix that [sign] builds on one object and flag is the one that
    [sign] or [verify] builds on another object and flag, then the two
    contexts are the same bytes and the two flags are equal. *)
Theorem dom2_separates_modes :
  forall (self1 self2 : EdDSASigScheme) (ph1 ph2 : bool) (dom2 : bytes),
    result (sign_dom2 ph1) self1 = Return dom2 ->
    result (verify_dom2 ph2) self2 = Return dom2 ->
    _context self1 = _context self2 /\ ph1 = ph2.
Proof.
  intros self1 self2 ph1 ph2 dom2 H1 H2.
  pose proof (sign_verify_dom2 ph2 self2) as Hsv.
  unfold result in H1, H2. rewrite <- Hsv in H2.
  destruct (Z.ltb_spec 255 (len (_context self1)));
    [rewrite run_sign_dom2_long in H1 by assumption; discriminate H1|].
  destruct (Z.ltb_spec 255 (len (_context self2)));
    [rewrite run_sign_dom2_long in H2 by assumption; discriminate H2|].
  rewrite run_sign_dom2 in H1, H2 by assumption.
  cbn [fst] in H1, H2. injection H1 as <-. injection H2 as H2.
  symmetry in H2. now apply spec_dom2_injective.
Qed.

(** [X11] The scalar of an accepted signature is fixed modulo the
    order by the rest: when [verify] returns on two signatures with the
    same first half, for the same message and object, their scalars
    are congruent modulo [L]. *)
Theorem accepted_scalar_unique_mod_order :
  forall (self : EdDSASigScheme) (o : PyObject) (sig1 sig2 : bytes),
    point_eq_sound ->
    order_exact (_curve (_key self)) ->
    _order self = order (_curve (_key self)) ->
    Z.gcd (_order self) 8 = 1 ->
    slice_to 32 sig1 = slice_to 32 sig2 ->
    result (verify o sig1) self = Return tt ->
    result (verify o sig2) self = Return tt ->
    Integer.from_bytes (slice_from 32 sig1) mod _order self =
    Integer.from_bytes (slice_from 32 sig2) mod _order self.
Proof.
  intros self o sig1 sig2 Hsound Hexact HL Hgcd HR H1 H2.
  apply verify_returns_facts in H1
    as (_ & _ & HL0 & ph1 & PHM1 & K1 & Hm1 & HK1 & _ & Heq1).
  apply verify_returns_facts in H2
    as (_ & _ & _ & ph2 & PHM2 & K2 & Hm2 & HK2 & _ & Heq2).
  destruct (message_functional _ _ _ _ _ Hm1 Hm2) as [<- <-].
  rewrite <- HR in HK2, Heq2. rewrite HK1 in HK2. injection HK2 as <-.
  unfold spec_equation in Heq1, Heq2.
  apply Hsound in Heq1, Heq2. rewrite <- Heq2 in Heq1.
  set (s1 := Integer.from_bytes (slice_from 32 sig1)) in *.
  set (s2 := Integer.from_bytes (slice_from 32 sig2)) in *.
  assert (Hs1 : 0 <= s1) by apply from_bytes_range.
  assert (Hs2 : 0 <= s2) by apply from_bytes_range.
  apply Hexact in Heq1; [|lia|lia]. rewrite <- HL in Heq1.
  apply Z.cong_iff_0. apply Z.cong_iff_0 in Heq1.
  apply Z.mod_divide in Heq1; [|assumption].
  apply Z.mod_divide; [assumption|].
  apply Z.gauss with (m := 8); [|assumption].
  replace (8 * (s1 - s2)) with (8 * s1 - 8 * s2) by ring. exact Heq1.
Qed.

End Outcomes.

(* ================================================================= *)
(** ** From the keys to an accepted signature *)

Section EndToEnd.

Context {B : Backend}.

Lemma new_ok (k : EccKey EccPoint) (context : option bytes) :
  name (_curve k) = "ed25519"%string ->
  len (context_or_empty context) <= 255 ->
  new (PyEccKey k) "rfc8032" context = Return (__init__ k (context_or_empty context)).
Proof.
  intros Hname Hlen. unfold new. rewrite Hname.
  cbn [String.eqb Ascii.eqb Bool.eqb negb].
  destruct context as [c|]; cbn [context_or_empty] in *; [|reflexivity].
  destruct (Z.ltb_spec 255 (len c)); [lia|reflexivity].
Qed.

(** A signature made with a key is accepted on every key of the same
    curve and public point. *)
Lemma signature_verifies (key kv : EccKey EccPoint) (d : Z) (prefix c : bytes)
    (o : PyObject) (ph : bool) (PHM : bytes) :
  encode_32 -> decode_encode -> point_eq_refl ->
  mul_add_distr -> mul_mul_assoc ->
  curve_contract (_curve key) ->
  private_key key d prefix ->
  message o ph PHM ->
  len c <= 255 ->
  _curve kv = _curve key ->
  pointQ kv = pointQ key ->
  exists signature,
    result (sign o) (__init__ key c) = Return signature /\
    List.length signature = 64%nat /\
    result (verify o signature) (__init__ kv c) = Return tt.
Proof.
  intros Henc Hdec Hrefl Hadd Hmul Hcurve [Hd Hp Hd0 HA] Hm Hlen Hcv HQv.
  pose proof Hcurve as [Hpos Hfit HG].
  set (self := __init__ key c).
  assert (HL : 0 < _order self <= 2 ^ 256) by (cbn; lia).
  pose proof (run_sign self o ph PHM d prefix Hd Hp Hm Hlen HL) as Hsign.
  unfold spec_signature, spec_r, spec_k, spec_scalar in Hsign.
  cbv zeta in Hsign.
  set (L := _order self) in *.
  set (dom2 := spec_dom2 (_context self) ph) in *.
  set (r := Integer.from_bytes (hash (dom2 ++ prefix ++ PHM)) mod L) in *.
  set (R := point_mul r (G (_curve (_key self)))) in *.
  set (k := Integer.from_bytes (hash (dom2 ++ encode_point R ++ _A self ++ PHM))
              mod L) in *.
  set (s := (r + k * d) mod L) in *.
  assert (Hr : 0 <= r < L) by (apply Z.mod_pos_bound; lia).
  assert (Hk : 0 <= k < L) by (apply Z.mod_pos_bound; lia).
  assert (Hsr : 0 <= s < L) by (apply Z.mod_pos_bound; lia).
  assert (Hsval : Integer.from_bytes (Integer.le_digits 32 s) = s).
  { apply from_bytes_le_digits. change (256 ^ Z.of_nat 32) with (2 ^ 256). lia. }
  assert (Hlen64 : List.length (encode_point R ++ Integer.le_digits 32 s) = 64%nat)
    by (rewrite length_app, Henc, le_digits_length; reflexivity).
  exists (encode_point R ++ Integer.le_digits 32 s).
  split; [exact Hsign|]. split; [exact Hlen64|].
  rewrite (verify_same_public kv key c) by assumption. fold self.
  destruct (Hdec R) as (K & HK & HKR).
  assert (H1 : slice_to 32 (encode_point R ++ Integer.le_digits 32 s)
               = encode_point R) by (apply slice_to_app, Henc).
  assert (H2 : slice_from 32 (encode_point R ++ Integer.le_digits 32 s)
               = Integer.le_digits 32 s) by (apply slice_from_app, Henc).
  rewrite (run_verify self o ph PHM _ K).
  - rewrite H1, H2, Hsval, HKR. unfold spec_equation.
    fold dom2 L. unfold spec_k, spec_scalar.
    fold (hash (dom2 ++ encode_point R ++ _A self ++ PHM)). fold k.
    subst s R L. cbn [__init__ _key _order self].
    rewrite HA.
    rewrite (cofactored_equation_of_signature (_curve key) d r k)
      by (assumption || lia).
    rewrite Hrefl. reflexivity.
  - unfold len. rewrite Hlen64. reflexivity.
  - assumption.
  - assumption.
  - lia.
  - rewrite H1. exact HK.
  - rewrite H2, Hsval. lia.
Qed.

(** [X12] From a seed to an accepted signature: every 32-byte seed is
    imported as a key that [new] accepts with a context of at most 255
    bytes; the object can sign, [sign] returns 64 bytes on every
    message and [verify] accepts them. *)
Theorem seed_to_accepted_signature :
  forall (c : Curve EccPoint) (seed : bytes) (context : option bytes)
         (o : PyObject) (ph : bool) (PHM : bytes),
    encode_32 -> decode_encode -> point_eq_refl ->
    mul_add_distr -> mul_mul_assoc ->
    curve_contract c ->
    construct_seed_contract c ->
    name c = "ed25519"%string ->
    len seed = 32 ->
    len (context_or_empty context) <= 255 ->
    message o ph PHM ->
    exists key self signature,
      import_private_key seed = Return key /\
      new (PyEccKey key) "rfc8032" context = Return self /\
      result can_sign self = Return true /\
      result (sign o) self = Return signature /\
      List.length signature = 64%nat /\
      result (verify o signature) self = Return tt.
Proof.
  intros c seed context o ph PHM Henc Hdec Hrefl Hadd Hmul Hcurve Hseed
    Hname Hlen Hctx Hm.
  destruct (Hseed seed Hlen) as (key & d & prefix & Hkey & Hc & Hpriv).
  subst c.
  destruct (signature_verifies key key d prefix (context_or_empty context)
              o ph PHM) as (signature & Hs & H64 & Hv); try assumption;
    try reflexivity.
  exists key, (__init__ key (context_or_empty context)), signature.
  split; [|split; [|split; [|split; [|split]]]].
  - unfold import_private_key. rewrite Hlen. exact Hkey.
  - now apply new_ok.
  - unfold result, can_sign, bind, getattr, ret, has_private. cbn.
    destruct Hpriv as [Hd _ _ _]. rewrite Hd. reflexivity.
  - exact Hs.
  - exact H64.
  - exact Hv.
Qed.

(** [X13] From the published key to an accepted signature: a verifier
    that imports the 32 bytes the signer's object caches as its public
    key and binds the same context accepts, on every message, the
    signature the signer returns. *)
Theorem published_key_accepts_signature :
  forall (key : EccKey EccPoint) (d : Z) (prefix : bytes)
         (context : option bytes) (o : PyObject) (ph : bool) (PHM : bytes),
    encode_32 -> decode_encode -> point_eq_refl ->
    mul_add_distr -> mul_mul_assoc ->
    curve_contract (_curve key) ->
    import_on_curve (_curve key) ->
    name (_curve key) = "ed25519"%string ->
    private_key key d prefix ->
    len (context_or_empty context) <= 255 ->
    message o ph PHM ->
    exists signer signature pub verifier,
      new (PyEccKey key) "rfc8032" context = Return signer /\
      result (sign o) signer = Return signature /\
      import_public_key (_A signer) = Return pub /\
      new (PyEccKey pub) "rfc8032" context = Return verifier /\
      result (verify o signature) verifier = Return tt.
Proof.
  intros key d prefix context o ph PHM Henc Hdec Hrefl Hadd Hmul Hcurve
    Himp Hname Hpriv Hctx Hm.
  destruct (Hdec (pointQ key)) as (pub & Hpub & HQ).
  pose proof (Himp _ _ Hpub) as Hc.
  destruct (signature_verifies key pub d prefix (context_or_empty context)
              o ph PHM) as (signature & Hs & _ & Hv); try assumption.
  exists (__init__ key (context_or_empty context)), signature, pub,
    (__init__ pub (context_or_empty context)).
  split; [|split; [|split; [|split]]].
  - now apply new_ok.
  - exact Hs.
  - exact Hpub.
  - apply new_ok; [rewrite Hc|]; assumption.
  - exact Hv.
Qed.

End EndToEnd.

(* ================================================================= *)
(** ** The contract holds in the backend of logarithms *)

Lemma cyclic_L_pos : 0 < Cyclic.L.
Proof. reflexivity. Qed.

Lemma cyclic_L_fits : Cyclic.L <= 2 ^ 256.
Proof. intros H. discriminate H. Qed.

Lemma cyclic_point_range (P : Cyclic.Point) : 0 <= Zmod.to_Z P < Cyclic.L.
Proof. apply Zmod.unsigned_pos_bound, cyclic_L_pos. Qed.

Lemma cyclic_encode_32 : @encode_32 Cyclic.backend.
Proof. intros P. apply le_digits_length. Qed.

Lemma cyclic_decode_encode : @decode_encode Cyclic.backend.
Proof.
  intros P. pose proof (cyclic_point_range P) as HP.
  pose proof cyclic_L_fits as HL.
  assert (Hv : Integer.from_bytes (Cyclic.encode P) = Zmod.to_Z P).
  { apply from_bytes_le_digits. change (256 ^ Z.of_nat 32) with (2 ^ 256). lia. }
  assert (Hlen : (len (Cyclic.encode P) =? 32) = true).
  { unfold len, Cyclic.encode. rewrite le_digits_length. reflexivity. }
  exists (mkEccKey Cyclic.curve P None None). split; [|reflexivity].
  unfold import_public_key.
  change (_import_ed25519_public_key (encode_point P))
    with (Cyclic.decode (Cyclic.encode P)).
  unfold Cyclic.decode. rewrite Hlen, Hv.
  destruct (Z.leb_spec Cyclic.L (Zmod.to_Z P)); [lia|].
  cbn [negb obind fst snd].
  change (construct "Ed25519" (Zmod.to_Z P) 0)
    with (Cyclic.construct_xy "Ed25519" (Zmod.to_Z P) 0).
  unfold Cyclic.construct_xy.
  rewrite Zmod.of_Z_unsigned. reflexivity.
Qed.

Lemma cyclic_point_eq_refl : @point_eq_refl Cyclic.backend.
Proof. intros P. apply Zmod.eqb_refl. Qed.

Lemma cyclic_mul_add_distr : @mul_add_distr Cyclic.backend.
Proof.
  intros a b P _ _. cbn [point_mul point_add Cyclic.backend].
  unfold Cyclic.mul. apply Zmod.unsigned_inj.
  rewrite Zmod.unsigned_add, !Zmod.unsigned_of_Z.
  rewrite Z.mul_add_distr_r. apply Z.add_mod. discriminate.
Qed.

Lemma cyclic_mul_mul_assoc : @mul_mul_assoc Cyclic.backend.
Proof.
  intros a b P _ _. cbn [point_mul Cyclic.backend].
  unfold Cyclic.mul. apply Zmod.of_Z_inj.
  rewrite Zmod.unsigned_of_Z, Z.mul_mod_idemp_r by discriminate.
  f_equal. ring.
Qed.

Lemma cyclic_curve_contract : @curve_contract Cyclic.backend Cyclic.curve.
Proof.
  split.
  - exact cyclic_L_pos.
  - exact cyclic_L_fits.
  - intros a _. cbn [point_mul Cyclic.backend order G Cyclic.curve].
    unfold Cyclic.mul. apply Zmod.of_Z_inj.
    rewrite Z.mul_mod_idemp_l by discriminate. reflexivity.
Qed.

Lemma clamp_nonneg (v : Z) : 0 <= clamp v.
Proof.
  unfold clamp.
  pose proof (Z.mod_pos_bound v (2 ^ 254) ltac:(reflexivity)).
  pose proof (Z.mod_pos_bound v 8 ltac:(reflexivity)).
  assert (8 <= 2 ^ 254) by (intros H'; discriminate H').
  lia.
Qed.

Lemma cyclic_private_key (seed : bytes) :
  @private_key Cyclic.backend (Cyclic.key_of_seed seed)
    (Cyclic.seed_d seed) (Cyclic.seed_prefix seed).
Proof.
  split; try reflexivity. apply clamp_nonneg.
Qed.

Lemma ed25519_encode_32 : @encode_32 Ed25519.backend.
Proof. intros P. apply le_digits_length. Qed.

Lemma ed25519_import_raises_ValueError :
  @import_raises_ValueError Ed25519.backend.
Proof.
  intros b e. unfold import_public_key.
  change (@_import_ed25519_public_key Ed25519.backend b) with (Ed25519.decode b).
  unfold Ed25519.decode.
  destruct (negb (len b =? 32)).
  { intros [= <-]. eexists. reflexivity. }
  cbv zeta.
  destruct (Ed25519.q <=? Integer.from_bytes b mod 2 ^ 255).
  { intros [= <-]. eexists. reflexivity. }
  destruct (Integer.from_bytes b mod 2 ^ 255 =? 1).
  { cbn [obind fst snd].
    change (@construct Ed25519.backend) with Ed25519.construct_xy.
    unfold Ed25519.construct_xy.
    destruct (Ed25519.on_curve _); intros [= <-]. eexists. reflexivity. }
  destruct (Ed25519.recover_x _ _) as [x|].
  - cbn [obind fst snd].
    change (@construct Ed25519.backend) with Ed25519.construct_xy.
    unfold Ed25519.construct_xy.
    destruct (Ed25519.on_curve _); intros [= <-]. eexists. reflexivity.
  - intros [= <-]. eexists. reflexivity.
Qed.

Lemma cyclic_construct_seed_contract :
  @construct_seed_contract Cyclic.backend Cyclic.curve.
Proof.
  intros seed _.
  exists (Cyclic.key_of_seed seed), (Cyclic.seed_d seed), (Cyclic.seed_prefix seed).
  split; [reflexivity|]. split; [reflexivity|]. apply cyclic_private_key.
Qed.

Lemma cyclic_import_on_curve : @import_on_curve Cyclic.backend Cyclic.curve.
Proof.
  intros b K. unfold import_public_key.
  change (@_import_ed25519_public_key Cyclic.backend b) with (Cyclic.decode b).
  destruct (Cyclic.decode b) as [xy|]; [|discriminate].
  cbn [obind].
  change (@construct Cyclic.backend) with Cyclic.construct_xy.
  unfold Cyclic.construct_xy. intros [= <-]. reflexivity.
Qed.

Lemma cyclic_point_eq_sound : @point_eq_sound Cyclic.backend.
Proof. intros P Q. apply Zmod.eqb_eq. Qed.

Lemma cyclic_order_exact : @order_exact Cyclic.backend Cyclic.curve.
Proof.
  intros a b _ _. cbn [point_mul Cyclic.backend order G Cyclic.curve].
  unfold Cyclic.mul. intros H. apply Zmod.of_Z_inj in H.
  rewrite Zmod.unsigned_of_Z in H.
  change (1 mod Cyclic.L) with 1 in H.
  rewrite !Z.mul_1_r in H. exact H.
Qed.

Lemma cyclic_L_odd : Z.gcd Cyclic.L 8 = 1.
Proof. vm_compute. reflexivity. Qed.

(* ================================================================= *)
(** ** The embedding on the test vector of RFC 8032 *)

Example rfc_public_key_of_seed :
  @_export_ed25519 Ed25519.backend rfc_key = rfc_public.
Proof. vm_compute. reflexivity. Qed.

Example rfc_sign_empty_message :
  result (@sign Ed25519.backend (@PyBytes Ed25519.backend [])) rfc_scheme
    = Return rfc_signature.
Proof. vm_compute. reflexivity. Qed.

Example rfc_verify_empty_message :
  result (@verify Ed25519.backend (@PyBytes Ed25519.backend []) rfc_signature)
    rfc_scheme = Return tt.
Proof. vm_compute. reflexivity. Qed.

Example rfc_verify_other_message :
  result (@verify Ed25519.backend
            (@PyBytes Ed25519.backend (list_byte_of_string "x")) rfc_signature)
    rfc_scheme = Raise not_authentic.
Proof. vm_compute. reflexivity. Qed.

Example rfc_sign_with_context :
  result (@sign Ed25519.backend (@PyBytes Ed25519.backend ctx_message)) ctx_scheme
    = Return ctx_signature.
Proof. vm_compute. reflexivity. Qed.

Example rfc_verify_with_context :
  result (@verify Ed25519.backend (@PyBytes Ed25519.backend ctx_message)
            ctx_signature) ctx_scheme = Return tt.
Proof. vm_compute. reflexivity. Qed.

Example rfc_sign_prehashed :
  result (@sign Ed25519.backend
            (@PySHA512Hash Ed25519.backend (list_byte_of_string "abc")))
    ph_scheme = Return ph_signature.
Proof. vm_compute. reflexivity. Qed.

Example rfc_verify_prehashed :
  result (@verify Ed25519.backend
            (@PySHA512Hash Ed25519.backend (list_byte_of_string "abc"))
            ph_signature) ph_scheme = Return tt.
Proof. vm_compute. reflexivity. Qed.

Example rfc_verify_prehashed_as_pure :
  result (@verify Ed25519.backend
            (@PyBytes Ed25519.backend (list_byte_of_string "abc"))
            ph_signature) ph_scheme = Raise not_authentic.
Proof. vm_compute. reflexivity. Qed.

Example rfc_import_private_key :
  @import_private_key Ed25519.backend rfc_seed = Return rfc_key.
Proof. reflexivity. Qed.

Example import_neutral_encoding :
  @import_public_key Ed25519.backend neutral_encoding = Return neutral_key.
Proof. vm_compute. reflexivity. Qed.

(** The first half [01 00 .. 00 80] decodes to the neutral point,
    whose encoding is another 32 bytes; [verify] accepts the signature
    made with the challenge of the bytes received, and the equation
    fails with the challenge of the encoding. *)
Example import_noncanonical_R :
  @import_public_key Ed25519.backend noncanonical_R = Return neutral_key /\
  @encode_point Ed25519.backend (pointQ neutral_key) = neutral_encoding /\
  neutral_encoding <> noncanonical_R.
Proof.
  split; [|split].
  - vm_compute. reflexivity.
  - vm_compute. reflexivity.
  - intros H. discriminate H.
Qed.

Example verify_accepts_noncanonical_R :
  result (@verify Ed25519.backend (@PyBytes Ed25519.backend [])
            noncanonical_signature) rfc_scheme = Return tt /\
  @spec_equation Ed25519.backend (G Ed25519.curve) (pointQ rfc_key)
    (pointQ neutral_key)
    (Integer.from_bytes (slice_from 32 noncanonical_signature))
    encoded_k = false.
Proof.
  split.
  - vm_compute. reflexivity.
  - vm_compute. reflexivity.
Qed.

(* ================================================================= *)
(** ** The range check on [s] *)

(** [C1] A signature whose scalar [s] is not below the group order is
    to be rejected whatever its first half and the message.  The check
    of [verify] is [s > order], so [s = L] passes it: with the key of
    the neutral point, the signature made of the neutral point's
    encoding and of [s = L] is accepted, on the empty message and on
    another one. *)
Theorem verify_accepts_s_equal_to_order :
  @import_public_key Ed25519.backend neutral_encoding = Return neutral_key /\
  @new Ed25519.backend (@PyEccKey Ed25519.backend neutral_key) "rfc8032" None
    = Return neutral_scheme /\
  @_order Ed25519.backend neutral_scheme = Ed25519.L /\
  len order_signature = 64 /\
  slice_to 32 order_signature = neutral_encoding /\
  Integer.from_bytes (slice_from 32 order_signature) = Ed25519.L /\
  result (@verify Ed25519.backend (@PyBytes Ed25519.backend []) order_signature)
    neutral_scheme = Return tt /\
  result (@verify Ed25519.backend
            (@PyBytes Ed25519.backend (list_byte_of_string "hello"))
            order_signature)
    neutral_scheme = Return tt.
Proof.
  split; [vm_compute; reflexivity|].
  split; [reflexivity|].
  split; [reflexivity|].
  split; [vm_compute; reflexivity|].
  split; [vm_compute; reflexivity|].
  split; [vm_compute; reflexivity|].
  split; vm_compute; reflexivity.
Qed.

(* ================================================================= *)
(** ** Instances of the theorems on Ed25519 *)

Section OnEd25519.

#[local] Existing Instance Ed25519.backend.

Lemma sign_returns_spec_signature_witness :
  exists R s,
    result (sign (PyBytes [])) rfc_scheme
      = Return (encode_point R ++ Integer.le_digits 32 s) /\
    List.length (encode_point R ++ Integer.le_digits 32 s) = 64%nat.
Proof.
  destruct (sign_returns_spec_signature rfc_scheme (PyBytes []) false []
              (Ed25519.seed_d rfc_seed) (Ed25519.seed_prefix rfc_seed))
    as (Hsign & Hlen & _).
  - exact ed25519_encode_32.
  - reflexivity.
  - reflexivity.
  - constructor.
  - apply Z.leb_le. reflexivity.
  - split; [reflexivity | apply Z.leb_le; reflexivity].
  - eexists _, _. split; [exact Hsign | exact Hlen].
Defined.

Lemma verify_iff_cofactored_equation_witness :
  let self := rfc_scheme in
  let R := pointQ rfc_R in
  let s := Integer.from_bytes (slice_from 32 rfc_signature) in
  let Gen := G (_curve (_key self)) in
  let A := pointQ (_key self) in
  exists k,
    result (verify_challenge (spec_dom2 (_context self) false) rfc_signature [])
      self = Return k /\
    (result (verify (PyBytes []) rfc_signature) self = Return tt <->
     point_eq (point_mul (8 * s) Gen)
              (point_add (point_mul 8 R) (point_mul (8 * k) A)) = true) /\
    (point_eq (point_mul (8 * s) Gen)
              (point_add (point_mul 8 R) (point_mul (8 * k) A)) = false ->
     result (verify (PyBytes []) rfc_signature) self = Raise not_authentic).
Proof.
  apply (@verify_iff_cofactored_equation Ed25519.backend rfc_scheme
           (PyBytes []) false []
           rfc_signature rfc_R).
  - vm_compute. reflexivity.
  - constructor.
  - apply Z.leb_le. reflexivity.
  - discriminate.
  - vm_compute. reflexivity.
  - apply Z.leb_le. vm_compute. reflexivity.
Defined.

Lemma sign_deterministic_witness :
  exists signature,
    List.length signature = 64%nat /\
    result (sign (PyBytes [])) rfc_scheme = Return signature /\
    result (sign (PyBytes [])) (final (sign (PyBytes [])) rfc_scheme)
      = Return signature.
Proof.
  destruct (@sign_deterministic Ed25519.backend rfc_key "rfc8032" None
              rfc_scheme rfc_scheme (PyBytes []) (PyBytes []) false []
              (Ed25519.seed_d rfc_seed) (Ed25519.seed_prefix rfc_seed))
    as (signature & Hlen & _ & Hfirst & _ & Hagain & _).
  - exact ed25519_encode_32.
  - reflexivity.
  - reflexivity.
  - reflexivity.
  - reflexivity.
  - split; [reflexivity | apply Z.leb_le; reflexivity].
  - constructor.
  - constructor.
  - exists signature. split; [exact Hlen|]. split; [exact Hfirst | exact Hagain].
Defined.

(** The challenge of [verify] on [01 00 .. 00 80] is not the challenge
    of the encoding of the point these bytes decode to. *)
Lemma verify_challenge_encoded_R_counterexample :
  ~ challenge_of_encoded_R rfc_scheme (PyBytes []) noncanonical_signature.
Proof.
  intros H.
  assert (Hne : noncanonical_k <> encoded_k).
  { vm_compute. intros E. discriminate E. }
  apply Hne. clear Hne.
  assert (E1 : slice_to 32 noncanonical_signature = noncanonical_R)
    by (apply slice_to_app; reflexivity).
  assert (E2 : encode_point (pointQ neutral_key) = neutral_encoding)
    by reflexivity.
  assert (EA : _A rfc_scheme = rfc_public) by exact rfc_public_key_of_seed.
  assert (Hk :
    result (verify_challenge (spec_dom2 (_context rfc_scheme) false)
              noncanonical_signature []) rfc_scheme =
    result (sign_challenge (spec_dom2 (_context rfc_scheme) false)
              (encode_point (pointQ neutral_key)) []) rfc_scheme).
  { apply H.
    - unfold len, noncanonical_signature.
      rewrite length_app, le_digits_length. reflexivity.
    - constructor.
    - rewrite E1. exact (proj1 import_noncanonical_R). }
  assert (EL : _order rfc_scheme = Ed25519.L) by reflexivity.
  assert (ED : spec_dom2 (_context rfc_scheme) false = []) by reflexivity.
  assert (Hinj : forall a b : Z, Return a = Return b :> outcome Z -> a = b)
    by (intros a b [= ->]; reflexivity).
  unfold result in Hk.
  rewrite run_verify_challenge, run_sign_challenge in Hk by discriminate.
  rewrite E1, E2, EA, EL, ED in Hk.
  exact (Hinj _ _ Hk).
Qed.

Lemma verify_challenge_uses_signature_bytes_witness :
  let self := rfc_scheme in
  let signature := noncanonical_signature in
  let dom2 := spec_dom2 (_context self) false in
  let R := pointQ neutral_key in
  let s := Integer.from_bytes (slice_from 32 signature) in
  let k :=
    Integer.from_bytes (hash (dom2 ++ slice_to 32 signature ++ _A self ++ []))
      mod _order self in
  verify_challenge dom2 signature [] self =
    sign_challenge dom2 (slice_to 32 signature) [] self /\
  result (verify_challenge dom2 signature []) self = Return k /\
  result (verify (PyBytes []) signature) self =
    (if point_eq (point_mul (s * 8) (G (_curve (_key self))))
          (point_add (point_mul 8 R) (point_mul (k * 8) (pointQ (_key self))))
     then Return tt else Raise not_authentic) /\
  (encode_point R = slice_to 32 signature ->
   verify_challenge dom2 signature [] self =
     sign_challenge dom2 (encode_point R) [] self).
Proof.
  apply (@verify_challenge_uses_signature_bytes Ed25519.backend rfc_scheme
           (PyBytes []) false [] noncanonical_signature neutral_key).
  - vm_compute. reflexivity.
  - constructor.
  - apply Z.leb_le. reflexivity.
  - discriminate.
  - vm_compute. reflexivity.
  - apply Z.leb_le. vm_compute. reflexivity.
Defined.

(** On a public key, an argument of an invalid type does not raise the
    input-type error: [sign] has raised the private-key error before
    looking at it. *)
Lemma sign_type_check_first_counterexample :
  ~ type_check_comes_first
      (@__init__ Ed25519.backend (public_only rfc_key) []) (PyStr "message").
Proof.
  intros H. specialize (H eq_refl eq_refl). discriminate H.
Qed.

Lemma sign_private_check_precedes_type_check_witness :
  result (sign (PyStr "message"))
    (@__init__ Ed25519.backend (public_only rfc_key) [])
    = Raise private_key_needed /\
  result (sign (PyBytes []))
    (@__init__ Ed25519.backend (public_only rfc_key) [])
    = Raise private_key_needed /\
  result (sign (PyStr "message")) rfc_scheme = Raise bad_message_type.
Proof.
  split; [|split].
  - apply sign_private_check_precedes_type_check. reflexivity.
  - apply sign_private_check_precedes_type_check. reflexivity.
  - apply sign_private_check_precedes_type_check; reflexivity.
Defined.

Lemma verify_length_check_precedes_type_check_witness :
  result (verify (PyInt 5) []) rfc_scheme = Raise bad_signature_length /\
  result (verify (PyInt 5) rfc_signature) rfc_scheme = Raise bad_message_type /\
  (result (verify (PyBytes [x78]) rfc_signature) rfc_scheme = Return tt \/
   result (verify (PyBytes [x78]) rfc_signature) rfc_scheme
     = Raise not_authentic_R \/
   result (verify (PyBytes [x78]) rfc_signature) rfc_scheme
     = Raise not_authentic_S \/
   result (verify (PyBytes [x78]) rfc_signature) rfc_scheme
     = Raise not_authentic).
Proof.
  split; [|split].
  - apply verify_length_check_precedes_type_check. discriminate.
  - apply verify_length_check_precedes_type_check; reflexivity.
  - apply (proj2 (proj2 (verify_length_check_precedes_type_check
                           rfc_scheme (PyBytes [x78]) rfc_signature)))
      with (ph := false) (PHM := [x78]).
    + vm_compute. reflexivity.
    + constructor.
    + exact ed25519_import_raises_ValueError.
    + apply Z.leb_le. reflexivity.
    + discriminate.
Defined.

End OnEd25519.

(* ================================================================= *)
(** ** Instances of the theorems in the backend of logarithms *)

Section OnCyclic.

#[local] Existing Instance Cyclic.backend.

Lemma sign_then_verify_witness :
  exists signature,
    result (sign (PyBytes (list_byte_of_string "abc"))) cyclic_scheme
      = Return signature /\
    List.length signature = 64%nat /\
    result (verify (PyBytes (list_byte_of_string "abc")) signature) cyclic_scheme
      = Return tt.
Proof.
  apply (@sign_then_verify Cyclic.backend cyclic_key
           (Cyclic.seed_d rfc_seed) (Cyclic.seed_prefix rfc_seed)
           "rfc8032" (Some (list_byte_of_string "foo"))
           cyclic_scheme cyclic_scheme _ false (list_byte_of_string "abc")).
  - exact cyclic_encode_32.
  - exact cyclic_decode_encode.
  - exact cyclic_point_eq_refl.
  - exact cyclic_mul_add_distr.
  - exact cyclic_mul_mul_assoc.
  - exact cyclic_curve_contract.
  - exact (cyclic_private_key rfc_seed).
  - constructor.
  - reflexivity.
  - reflexivity.
Defined.

Lemma dom2_sign_verify_agree_witness :
  len (_context cyclic_scheme) <= 255 /\
  exists dom2,
    result (sign_dom2 true) cyclic_scheme = Return dom2 /\
    result (verify_dom2 true) cyclic_scheme = Return dom2 /\
    dom2 = dom2_tag ++ [x01] ++ [x03] ++ list_byte_of_string "foo".
Proof.
  assert (Hlen : len (_context cyclic_scheme) <= 255)
    by (apply Z.leb_le; reflexivity).
  split; [exact Hlen|].
  destruct (proj2 (dom2_sign_verify_agree cyclic_scheme true) Hlen)
    as (dom2 & Hs & Hv & Hspec & _).
  exists dom2. split; [exact Hs|]. split; [exact Hv|].
  rewrite Hspec. reflexivity.
Defined.

End OnCyclic.

(* ================================================================= *)
(** ** Instances of the further theorems on Ed25519 *)

Section MoreOnEd25519.

#[local] Existing Instance Ed25519.backend.

Lemma new_returns_iff_witness :
  @new Ed25519.backend (@PyEccKey Ed25519.backend rfc_key) "rfc8032" None = Return rfc_scheme.
Proof.
  apply (proj2 (@new_returns_iff Ed25519.backend (@PyEccKey Ed25519.backend rfc_key) "rfc8032"
                  None rfc_scheme)).
  exists rfc_key. repeat split. apply Z.leb_le. reflexivity.
Defined.

Lemma new_failure_order_witness :
  @new Ed25519.backend PyNone "no mode" (Some long_context) = Raise new_bad_key /\
  @new Ed25519.backend (@PyEccKey Ed25519.backend rfc_key) "no mode" (Some long_context)
    = Raise new_bad_mode /\
  @new Ed25519.backend (@PyEccKey Ed25519.backend rfc_key) "rfc8032" (Some long_context)
    = Raise new_long_context.
Proof.
  assert (Hkey : @ed25519_key Ed25519.backend (@PyEccKey Ed25519.backend rfc_key))
    by (exists rfc_key; split; reflexivity).
  split; [|split].
  - apply (@new_failure_order Ed25519.backend).
    intros (k & Hk & _). discriminate Hk.
  - apply (@new_failure_order Ed25519.backend); [exact Hkey|discriminate].
  - apply (@new_failure_order Ed25519.backend);
      [exact Hkey | reflexivity | reflexivity].
Defined.

Lemma import_private_key_length_witness :
  @import_private_key Ed25519.backend [] = Raise bad_private_key_length /\
  @import_private_key Ed25519.backend rfc_seed
    = @construct_seed Ed25519.backend rfc_seed "ed25519".
Proof.
  split.
  - apply (@import_private_key_length Ed25519.backend). discriminate.
  - apply (@import_private_key_length Ed25519.backend). reflexivity.
Defined.

Lemma long_context_raises_witness :
  result (sign (PyBytes [])) long_scheme = Raise bchr_out_of_range /\
  result (verify (PyBytes []) rfc_signature) long_scheme
    = Raise bchr_out_of_range.
Proof.
  assert (Hlen : 255 < len (_context long_scheme)) by reflexivity.
  pose proof (@long_context_raises Ed25519.backend long_scheme (PyBytes [])
                false [] rfc_signature Hlen (message_raw [])) as (Hs & Hv & _).
  split.
  - apply Hs. reflexivity.
  - apply Hv. reflexivity.
Defined.

Lemma can_sign_tells_sign_witness :
  result can_sign rfc_scheme = Return true /\
  forall o, result (sign o) rfc_scheme <> Raise private_key_needed.
Proof.
  pose proof (@can_sign_tells_sign Ed25519.backend rfc_scheme)
    as (Hcan & _ & _ & Htrue).
  split; [exact Hcan|]. apply Htrue. exact Hcan.
Defined.

Lemma verify_decodes_then_checks_range_witness :
  result (verify (PyBytes []) undecodable_signature) rfc_scheme
    = Raise not_authentic_R /\
  result (verify (PyBytes []) above_order_signature) rfc_scheme
    = Raise not_authentic_S.
Proof.
  split.
  - apply (proj1 (@verify_decodes_then_checks_range Ed25519.backend rfc_scheme
                    (PyBytes []) false [] undecodable_signature
                    eq_refl (message_raw [])
                    ltac:(apply Z.leb_le; reflexivity)))
      with (msg := "Invalid Ed25519 key (y)"%string).
    vm_compute. reflexivity.
  - apply (proj2 (@verify_decodes_then_checks_range Ed25519.backend rfc_scheme
                    (PyBytes []) false [] above_order_signature
                    eq_refl (message_raw [])
                    ltac:(apply Z.leb_le; reflexivity)))
      with (K := rfc_R).
    + vm_compute. reflexivity.
    + apply Z.ltb_lt. vm_compute. reflexivity.
Defined.

Lemma verify_reads_public_half_only_witness :
  result (verify (PyBytes []) rfc_signature)
    (@__init__ Ed25519.backend rfc_key []) =
  result (verify (PyBytes []) rfc_signature)
    (@__init__ Ed25519.backend (@public_only Ed25519.backend rfc_key) []).
Proof.
  exact (proj1 (@verify_reads_public_half_only Ed25519.backend rfc_key
                  (@public_only Ed25519.backend rfc_key) [] (PyBytes [])
                  rfc_signature
                  (eq_sym (@public_only_curve Ed25519.backend rfc_key))
                  (eq_sym (@public_only_point Ed25519.backend rfc_key)))).
Defined.

Lemma sign_output_shape_witness :
  List.length rfc_signature = 64%nat /\
  0 <= Integer.from_bytes (slice_from 32 rfc_signature) < _order rfc_scheme.
Proof.
  destruct (@sign_output_shape Ed25519.backend rfc_scheme (PyBytes [])
              rfc_signature) as (Hlen & Hs & _).
  - exact ed25519_encode_32.
  - reflexivity.
  - vm_compute. reflexivity.
  - split; [exact Hlen | exact Hs].
Defined.

Lemma verify_returns_only_if_witness :
  exists K,
    import_public_key (slice_to 32 rfc_signature) = Return K /\
    0 <= Integer.from_bytes (slice_from 32 rfc_signature) <= _order rfc_scheme.
Proof.
  destruct (@verify_returns_only_if Ed25519.backend rfc_scheme (PyBytes [])
              rfc_signature) as (_ & ph & PHM & K & _ & HK & Hs & _).
  - vm_compute. reflexivity.
  - exists K. split; [exact HK | exact Hs].
Defined.

End MoreOnEd25519.

(* ================================================================= *)
(** ** Instances of the further theorems in the backend of logarithms *)

Section MoreOnCyclic.

#[local] Existing Instance Cyclic.backend.

Lemma dom2_separates_modes_witness :
  _context cyclic_scheme = _context cyclic_scheme /\ true = true.
Proof.
  apply (@dom2_separates_modes Cyclic.backend cyclic_scheme cyclic_scheme
           true true (spec_dom2 (list_byte_of_string "foo") true));
    reflexivity.
Defined.

Lemma accepted_scalar_unique_mod_order_witness :
  Integer.from_bytes (slice_from 32 cyclic_zero_signature)
    mod _order cyclic_neutral_scheme =
  Integer.from_bytes (slice_from 32 cyclic_order_signature)
    mod _order cyclic_neutral_scheme.
Proof.
  apply (@accepted_scalar_unique_mod_order Cyclic.backend cyclic_neutral_scheme
           (PyBytes []) cyclic_zero_signature cyclic_order_signature).
  - exact cyclic_point_eq_sound.
  - exact cyclic_order_exact.
  - reflexivity.
  - exact cyclic_L_odd.
  - reflexivity.
  - vm_compute. reflexivity.
  - vm_compute. reflexivity.
Defined.

Lemma seed_to_accepted_signature_witness :
  exists key self signature,
    import_private_key rfc_seed = Return key /\
    new (PyEccKey key) "rfc8032" (Some (list_byte_of_string "foo")) = Return self /\
    result can_sign self = Return true /\
    result (sign (PyBytes (list_byte_of_string "abc"))) self = Return signature /\
    List.length signature = 64%nat /\
    result (verify (PyBytes (list_byte_of_string "abc")) signature) self
      = Return tt.
Proof.
  apply (@seed_to_accepted_signature Cyclic.backend Cyclic.curve rfc_seed
           (Some (list_byte_of_string "foo")) _ false
           (list_byte_of_string "abc")).
  - exact cyclic_encode_32.
  - exact cyclic_decode_encode.
  - exact cyclic_point_eq_refl.
  - exact cyclic_mul_add_distr.
  - exact cyclic_mul_mul_assoc.
  - exact cyclic_curve_contract.
  - exact cyclic_construct_seed_contract.
  - reflexivity.
  - reflexivity.
  - apply Z.leb_le. reflexivity.
  - constructor.
Defined.

Lemma published_key_accepts_signature_witness :
  exists signer signature pub verifier,
    new (@PyEccKey Cyclic.backend cyclic_key) "rfc8032" None = Return signer /\
    result (sign (PyBytes (list_byte_of_string "abc"))) signer
      = Return signature /\
    import_public_key (_A signer) = Return pub /\
    new (PyEccKey pub) "rfc8032" None = Return verifier /\
    result (verify (PyBytes (list_byte_of_string "abc")) signature) verifier
      = Return tt.
Proof.
  apply (@published_key_accepts_signature Cyclic.backend cyclic_key
           (Cyclic.seed_d rfc_seed) (Cyclic.seed_prefix rfc_seed) None
           _ false (list_byte_of_string "abc")).
  - exact cyclic_encode_32.
  - exact cyclic_decode_encode.
  - exact cyclic_point_eq_refl.
  - exact cyclic_mul_add_distr.
  - exact cyclic_mul_mul_assoc.
  - exact cyclic_curve_contract.
  - exact cyclic_import_on_curve.
  - reflexivity.
  - exact (cyclic_private_key rfc_seed).
  - apply Z.leb_le. reflexivity.
  - constructor.
Defined.

End MoreOnCyclic.
